(** * order-swift-commerce-cloud: cart state and catalog view

    A shallow embedding of the state logic of the storefront page:
    - [src/pages/Index.tsx]: the cart handlers [addToCart],
      [removeFromCart], [updateQuantity] and the badge count passed to the
      header;
    - [src/components/ProductGrid.tsx]: the mock catalog, the category
      filter [filteredProducts] and [toggleFavorite].

    React state is modelled by explicit state passing: a call
    [setCartItems(prev => e)] is the function [fun prev => e] on the list of
    cart items, and a handler is the function it installs.  Product ids,
    names and categories are strings compared with [===] ([String.eqb]).
    A quantity is a JavaScript number, that is an IEEE 754 binary64 value:
    it is a primitive [float], [+] is [PrimFloat.add] (round to nearest,
    ties to even) and [<=] is [PrimFloat.leb], so that fractions, [NaN],
    the infinities and the rounding of sums above [2^53] are all part of
    the model.  Prices and review counts are only carried and are kept in
    [Z]; ratings are carried as the rationals their decimal literals
    denote.  The favourites [Set<string>] is a [gset string].

    Module [Index] and module [ProductGrid] follow the components on data
    of the declared types.  Module [Dyn] follows the same handlers on
    untyped values ([product: any], [any[]]), where reading a property of
    [null] or [undefined] throws; it is what the statements on failure are
    about, and it is related to the typed handlers by an encoding. *)

From Stdlib Require Import Floats.
From Stdlib Require Import ZArith QArith Qround String List Lia.
From stdpp Require Import gmap strings list.
Import ListNotations.

Local Open Scope Z_scope.

(** ** Data model *)

(** [interface Product] of ProductGrid.tsx; optional fields are options. *)
Record Product := {
  id : string;
  name : string;
  price : Z;
  originalPrice : option Z;
  image : string;
  category : string;
  rating : Q;
  reviews : Z;
  isNew : option bool;
  isSale : option bool
}.

(** A cart entry is the object [{ ...product, quantity }]: every field of
    the product it was created from, and a quantity. *)
Record CartItem := {
  product_of : Product;
  quantity : float
}.

(** [item.id] on a cart entry. *)
Definition item_id (item : CartItem) : string := id (product_of item).

(** ** Index.tsx: the cart handlers *)

Module Index.

(** [{ ...item, quantity: q }] *)
Definition with_quantity (item : CartItem) (q : float) : CartItem :=
  {| product_of := product_of item; quantity := q |}.

(** [addToCart]: the updater given to [setCartItems]. [find] returns the
    first entry with the product's id; an entry is an object, hence truthy. *)
Definition addToCart (product : Product) (prev : list CartItem) : list CartItem :=
  match List.find (fun item => String.eqb (item_id item) (id product)) prev with
  | Some existingItem =>
      List.map (fun item =>
                  if String.eqb (item_id item) (id product)
                  then with_quantity item (quantity item + 1)%float
                  else item) prev
  | None => prev ++ [ {| product_of := product; quantity := 1%float |} ]
  end.

(** [removeFromCart]: [prev.filter(item => item.id !== productId)]. *)
Definition removeFromCart (productId : string) (prev : list CartItem) : list CartItem :=
  List.filter (fun item => negb (String.eqb (item_id item) productId)) prev.

(** [updateQuantity]: delegates to [removeFromCart] when [quantity <= 0],
    otherwise overwrites the quantity of the matching entries.  The test
    is false for [NaN], which is therefore stored. *)
Definition updateQuantity (productId : string) (quantity : float)
    (prev : list CartItem) : list CartItem :=
  if (quantity <=? 0)%float then removeFromCart productId prev
  else List.map (fun item =>
                   if String.eqb (item_id item) productId
                   then with_quantity item quantity
                   else item) prev.

(** The header badge:
    [cartItems.reduce((sum, item) => sum + item.quantity, 0)]. *)
Definition cartItemsCount (cartItems : list CartItem) : float :=
  List.fold_left (fun sum item => (sum + quantity item)%float) cartItems 0%float.

(** The three events that change the cart. *)
Inductive CartOp :=
| AddToCart (product : Product)
| RemoveFromCart (productId : string)
| UpdateQuantity (productId : string) (quantity : float).

Definition apply_op (cart : list CartItem) (op : CartOp) : list CartItem :=
  match op with
  | AddToCart product => addToCart product cart
  | RemoveFromCart productId => removeFromCart productId cart
  | UpdateQuantity productId quantity => updateQuantity productId quantity cart
  end.

(** The cart after a sequence of events, from [useState([])]. *)
Definition run_from (cart : list CartItem) (ops : list CartOp) : list CartItem :=
  List.fold_left apply_op ops cart.

Definition run (ops : list CartOp) : list CartItem := run_from [] ops.

End Index.

(** ** ProductGrid.tsx: the catalog view *)

Module ProductGrid.

Local Open Scope string_scope.

Definition mockProducts : list Product := [
  {| id := "1"; name := "Premium Wireless Headphones"; price := 24999;
     originalPrice := Some 32999; image := "/placeholder.svg";
     category := "Electronics"; rating := (48 # 10)%Q; reviews := 324;
     isNew := None; isSale := Some true |};
  {| id := "2"; name := "Designer Leather Jacket"; price := 49999;
     originalPrice := None; image := "/placeholder.svg";
     category := "Fashion"; rating := (49 # 10)%Q; reviews := 156;
     isNew := Some true; isSale := None |};
  {| id := "3"; name := "Smart Fitness Watch"; price := 20999;
     originalPrice := Some 24999; image := "/placeholder.svg";
     category := "Wearables"; rating := (47 # 10)%Q; reviews := 892;
     isNew := None; isSale := Some true |};
  {| id := "4"; name := "Minimalist Backpack"; price := 7499;
     originalPrice := None; image := "/placeholder.svg";
     category := "Accessories"; rating := (46 # 10)%Q; reviews := 203;
     isNew := None; isSale := None |};
  {| id := "5"; name := "Organic Coffee Beans"; price := 1999;
     originalPrice := None; image := "/placeholder.svg";
     category := "Food"; rating := (49 # 10)%Q; reviews := 445;
     isNew := Some true; isSale := None |};
  {| id := "6"; name := "Wireless Charging Pad"; price := 4099;
     originalPrice := Some 5799; image := "/placeholder.svg";
     category := "Electronics"; rating := (45 # 10)%Q; reviews := 127;
     isNew := None; isSale := Some true |};
  {| id := "7"; name := "Artisan Ceramic Mug"; price := 2699;
     originalPrice := None; image := "/placeholder.svg";
     category := "Home"; rating := (48 # 10)%Q; reviews := 89;
     isNew := None; isSale := None |};
  {| id := "8"; name := "Professional Camera Lens"; price := 74999;
     originalPrice := None; image := "/placeholder.svg";
     category := "Photography"; rating := (49 # 10)%Q; reviews := 234;
     isNew := Some true; isSale := None |}
].

(** [selectedCategory === 'All' ? mockProducts
      : mockProducts.filter(p => p.category === selectedCategory)] *)
Definition filteredProducts (selectedCategory : string) : list Product :=
  if String.eqb selectedCategory "All" then mockProducts
  else List.filter (fun p => String.eqb (category p) selectedCategory) mockProducts.

(** [toggleFavorite]: the updater given to [setFavorites]; it copies the
    set, then deletes the id when the copy has it and adds it otherwise. *)
Definition toggleFavorite (productId : string) (prev : gset string) : gset string :=
  let newFavorites := prev in
  if decide (productId ∈ newFavorites)
  then newFavorites ∖ {[ productId ]}
  else newFavorites ∪ {[ productId ]}.

(** [Array.from(new Set(xs))]: a JavaScript [Set] built from an iterable adds
    the values one by one, ignores a value it already has and iterates in
    insertion order. *)
Definition setFrom (xs : list string) : list string :=
  List.fold_left (fun (seen : list string) (x : string) =>
                    if decide (x ∈ seen) then seen else (seen ++ [x])%list)
                 xs [].

(** The two catalog computations with the product list as an argument;
    the component applies them to [mockProducts]. *)
Definition categoriesOf (products : list Product) : list string :=
  "All" :: setFrom (List.map category products).

Definition filterProducts (products : list Product) (selectedCategory : string)
    : list Product :=
  if String.eqb selectedCategory "All" then products
  else List.filter (fun p => String.eqb (category p) selectedCategory) products.

(** [['All', ...Array.from(new Set(mockProducts.map(p => p.category)))]] *)
Definition categories : list string := categoriesOf mockProducts.

(** The five stars of a card:
    [[...Array(5)].map((_, i) => i < Math.floor(product.rating))],
    [true] for a filled star. *)
Definition filledStars (product : Product) : list bool :=
  List.map (fun i : Z => (i <? Qfloor (rating product))%Z)
           (List.map Z.of_nat (List.seq 0 5)).

(** The favourites after a series of clicks on heart buttons. *)
Definition toggleAll (productIds : list string) (prev : gset string) : gset string :=
  List.fold_left (fun favs productId => toggleFavorite productId favs)
                 productIds prev.

End ProductGrid.

(** ** The page as a whole *)

(** The state held by the two components: [cartItems] and [isCartOpen] of
    [Index], [favorites] and [selectedCategory] of [ProductGrid].  The
    catalog is a module constant and is not part of any state. *)
Record PageState := {
  isCartOpen : bool;
  cartItems : list CartItem;
  favorites : gset string;
  selectedCategory : string
}.

Definition initialState : PageState :=
  {| isCartOpen := false; cartItems := []; favorites := ∅;
     selectedCategory := "All" |}.

(** User events that reach one of the state setters. *)
Inductive Event :=
| Cart (op : Index.CartOp)
| SelectCategory (category : string)
| ToggleFavorite (productId : string)
| OpenCart
| CloseCart.

Definition dispatch (s : PageState) (e : Event) : PageState :=
  match e with
  | Cart op =>
      {| isCartOpen := isCartOpen s; cartItems := Index.apply_op (cartItems s) op;
         favorites := favorites s; selectedCategory := selectedCategory s |}
  | SelectCategory c =>
      {| isCartOpen := isCartOpen s; cartItems := cartItems s;
         favorites := favorites s; selectedCategory := c |}
  | ToggleFavorite productId =>
      {| isCartOpen := isCartOpen s; cartItems := cartItems s;
         favorites := ProductGrid.toggleFavorite productId (favorites s);
         selectedCategory := selectedCategory s |}
  | OpenCart =>
      {| isCartOpen := true; cartItems := cartItems s;
         favorites := favorites s; selectedCategory := selectedCategory s |}
  | CloseCart =>
      {| isCartOpen := false; cartItems := cartItems s;
         favorites := favorites s; selectedCategory := selectedCategory s |}
  end.

(** What a render shows of the state: the badge and the product cards. *)
Definition badge (s : PageState) : float := Index.cartItemsCount (cartItems s).

Definition shownProducts (s : PageState) : list Product :=
  ProductGrid.filteredProducts (selectedCategory s).

(** ** Numbers of the specification *)

(** The JavaScript number of an integer (the nearest binary64 value). *)
Definition num (z : Z) : float :=
  SF2Prim (binary_normalize prec emax z 0 false).

(** The integer a number denotes, when it denotes one: [None] for [NaN],
    the infinities and the numbers with a fractional part. *)
Definition int_value (x : float) : option Z :=
  match Prim2SF x with
  | S754_zero _ => Some 0
  | S754_finite s m e =>
      if 0 <=? e then Some (cond_Zopp s (Z.pos m * 2 ^ e))
      else if Z.pos m mod 2 ^ (- e) =? 0
           then Some (cond_Zopp s (Z.pos m / 2 ^ (- e)))
           else None
  | _ => None
  end.


(** "Incremented by 1": [q'] denotes the integer after the one [q] denotes. *)
Definition incremented_by_one (q q' : float) : Prop :=
  exists n : Z, int_value q = Some n /\ int_value q' = Some (n + 1).

(** A mantissa and an exponent within the format for the integer [n]. *)
Definition represents (n : Z) (k : positive) (c : Z) : Prop :=
  bounded prec emax k c = true /\ -52 <= c <= 1
  /\ Z.pos k * 2 ^ (c + 52) = n * 2 ^ 52.

(** What the sum of two positive finite numbers can be. *)
Definition positive_result (r : spec_float) : Prop :=
  r = S754_infinity false \/ exists m e, r = S754_finite false m e.

(** The numbers for which [x <= 0] is false: the positive ones and [NaN]. *)
Definition not_le0 (x : spec_float) : bool :=
  match x with
  | S754_nan | S754_infinity false | S754_finite false _ _ => true
  | _ => false
  end.

(** ** Properties named by the specification *)

(** Line items are unique by product id. *)
Definition unique_ids (cart : list CartItem) : Prop :=
  NoDup (List.map item_id cart).

(** No line item has a quantity for which [quantity <= 0] holds. *)
Definition no_quantity_le0 (cart : list CartItem) : Prop :=
  Forall (fun item => (quantity item <=? 0)%float = false) cart.

Definition cart_inv (cart : list CartItem) : Prop :=
  unique_ids cart /\ no_quantity_le0 cart.

(** No line item of the cart has this product id. *)
Definition absent (productId : string) (cart : list CartItem) : Prop :=
  forall item, In item cart -> item_id item <> productId.

(** The sum over all line items of their quantity, as the specification
    words it: the sum of the integers the quantities denote. *)
Fixpoint sum_quantities (cart : list CartItem) : option Z :=
  match cart with
  | [] => Some 0
  | item :: rest =>
      match int_value (quantity item), sum_quantities rest with
      | Some n, Some s => Some (n + s)
      | _, _ => None
      end
  end.

(** The quantities of the cart are the non-negative integers [ns]. *)
Definition integer_quantities (cart : list CartItem) (ns : list Z) : Prop :=
  Forall2 (fun item n => 0 <= n /\ quantity item = num n) cart ns.

Definition sum_Z (ns : list Z) : Z := List.fold_right Z.add 0 ns.

(** ** The handlers on untyped values *)

Module Dyn.

Local Open Scope string_scope.

(** Primitive values, and the values a product or a cart entry can be: a
    primitive or a plain object whose properties hold primitives.  String
    primitives in the place of a whole product (their spread enumerates
    code units) and nested objects are left out. *)
Inductive prim :=
| PUndefined
| PNull
| PBool (b : bool)
| PNumber (x : float)
| PString (s : string).

Inductive value :=
| VUndefined
| VNull
| VBool (b : bool)
| VNumber (x : float)
| VObject (props : gmap string prim).

(** The outcome of an evaluation: a value, a thrown [TypeError], or a step
    that this model does not follow. *)
Inductive result (A : Type) :=
| Returned (a : A)
| Throws
| Unmodelled.

Arguments Returned {A} a.
Arguments Throws {A}.
Arguments Unmodelled {A}.

#[export] Instance result_ret : MRet result := fun A a => Returned a.

#[export] Instance result_bind : MBind result :=
  fun A B f r =>
    match r with
    | Returned a => f a
    | Throws => Throws
    | Unmodelled => Unmodelled
    end.

(** [v.k] for a key that no prototype defines ([id], [quantity] and
    [category] are the keys read): a [TypeError] on [null] and [undefined],
    [undefined] on the other primitives and on an object without the key. *)
Definition get (v : value) (k : string) : result prim :=
  match v with
  | VUndefined | VNull => Throws
  | VBool _ | VNumber _ => Returned PUndefined
  | VObject props => Returned (default PUndefined (props !! k))
  end.

(** [a === b] on primitives: [NaN] differs from itself, [+0] equals [-0]. *)
Definition strict_eq (a b : prim) : bool :=
  match a, b with
  | PUndefined, PUndefined => true
  | PNull, PNull => true
  | PBool x, PBool y => Bool.eqb x y
  | PNumber x, PNumber y => (x =? y)%float
  | PString x, PString y => String.eqb x y
  | _, _ => false
  end.

(** The condition [if (v)]. *)
Definition truthy (v : value) : bool :=
  match v with
  | VUndefined | VNull => false
  | VBool b => b
  | VNumber x => negb ((x =? 0)%float || is_nan x)
  | VObject _ => true
  end.

(** [ToNumber] on the primitives that are not strings; [js_add] sets the
    strings aside before it is called. *)
Definition to_number (p : prim) : float :=
  match p with
  | PUndefined => nan
  | PNull => 0%float
  | PBool b => if b then 1%float else 0%float
  | PNumber x => x
  | PString _ => nan
  end.

(** [a + b]: a numeric sum unless an operand is a string; the
    concatenation, which has to print a number, is not followed. *)
Definition js_add (a b : prim) : result prim :=
  match a, b with
  | PString _, _ | _, PString _ => Unmodelled
  | _, _ => Returned (PNumber (to_number a + to_number b)%float)
  end.

(** The own enumerable properties that [{ ...v }] copies. *)
Definition own (v : value) : gmap string prim :=
  match v with
  | VObject props => props
  | _ => ∅
  end.

(** [{ ...v, quantity: q }] *)
Definition spread_quantity (v : value) (q : prim) : value :=
  VObject (<["quantity" := q]> (own v)).

(** [Array.prototype.find], [map], [filter] and [reduce] with a callback
    that may throw: the elements are visited from left to right and the
    first throw ends the call. *)
Fixpoint find (f : value -> result bool) (l : list value) : result (option value) :=
  match l with
  | [] => Returned None
  | x :: rest => b ← f x; if (b : bool) then Returned (Some x) else find f rest
  end.

Fixpoint map (f : value -> result value) (l : list value) : result (list value) :=
  match l with
  | [] => Returned []
  | x :: rest => y ← f x; ys ← map f rest; Returned (y :: ys)
  end.

Fixpoint filter (f : value -> result bool) (l : list value) : result (list value) :=
  match l with
  | [] => Returned []
  | x :: rest =>
      b ← f x; ys ← filter f rest;
      Returned (if (b : bool) then x :: ys else ys)
  end.

Fixpoint reduce (f : prim -> value -> result prim) (l : list value) (acc : prim)
    : result prim :=
  match l with
  | [] => Returned acc
  | x :: rest => acc' ← f acc x; reduce f rest acc'
  end.

(** [item.id === product.id] *)
Definition same_id (item product : value) : result bool :=
  a ← get item "id"; b ← get product "id"; Returned (strict_eq a b).

Definition addToCart (product : value) (prev : list value) : result (list value) :=
  existingItem ← find (fun item => same_id item product) prev;
  if match existingItem with Some e => truthy e | None => false end
  then map (fun item =>
              c ← same_id item product;
              if (c : bool)
              then q ← get item "quantity";
                   q' ← js_add q (PNumber 1);
                   Returned (spread_quantity item q')
              else Returned item) prev
  else Returned (prev ++ [spread_quantity product (PNumber 1)])%list.

Definition removeFromCart (productId : string) (prev : list value)
    : result (list value) :=
  filter (fun item =>
            a ← get item "id";
            Returned (negb (strict_eq a (PString productId)))) prev.

Definition updateQuantity (productId : string) (quantity : float)
    (prev : list value) : result (list value) :=
  if (quantity <=? 0)%float then removeFromCart productId prev
  else map (fun item =>
              a ← get item "id";
              if strict_eq a (PString productId)
              then Returned (spread_quantity item (PNumber quantity))
              else Returned item) prev.

Definition cartItemsCount (cartItems : list value) : result prim :=
  reduce (fun sum item => q ← get item "quantity"; js_add sum q)
         cartItems (PNumber 0).

Definition filteredProducts (products : list value) (selectedCategory : string)
    : result (list value) :=
  if String.eqb selectedCategory "All" then Returned products
  else filter (fun p =>
                 c ← get p "category";
                 Returned (strict_eq c (PString selectedCategory))) products.

Inductive CartOp :=
| AddToCart (product : value)
| RemoveFromCart (productId : string)
| UpdateQuantity (productId : string) (quantity : float).

Definition apply_op (cart : list value) (op : CartOp) : result (list value) :=
  match op with
  | AddToCart product => addToCart product cart
  | RemoveFromCart productId => removeFromCart productId cart
  | UpdateQuantity productId quantity => updateQuantity productId quantity cart
  end.

Fixpoint run_from (cart : list value) (ops : list CartOp) : result (list value) :=
  match ops with
  | [] => Returned cart
  | op :: rest => cart' ← apply_op cart op; run_from cart' rest
  end.

Definition run (ops : list CartOp) : result (list value) := run_from [] ops.

(** The object of a typed product and of a typed cart entry. *)
Definition optional (k : string) (o : option prim) (props : gmap string prim)
    : gmap string prim :=
  match o with
  | Some p => <[k := p]> props
  | None => props
  end.

Definition product_props (p : Product) : gmap string prim :=
  <["id" := PString (id p)]>
  (<["name" := PString (name p)]>
  (<["price" := PNumber (num (price p))]>
  (<["image" := PString (image p)]>
  (<["category" := PString (category p)]>
  (<["rating" := PNumber (num (Qnum (rating p)) / num (Z.pos (Qden (rating p))))%float]>
  (<["reviews" := PNumber (num (reviews p))]>
  (optional "originalPrice" (PNumber ∘ num <$> originalPrice p)
  (optional "isNew" (PBool <$> isNew p)
  (optional "isSale" (PBool <$> isSale p) ∅))))))))).

Definition encode_product (p : Product) : value := VObject (product_props p).

Definition encode_item (item : CartItem) : value :=
  VObject (<["quantity" := PNumber (quantity item)]>
             (product_props (product_of item))).


(** A cart entry as the handlers leave it: an object with a number under
    [quantity]. *)
Definition is_entry (v : value) : Prop :=
  exists props x, v = VObject props /\ props !! "quantity" = Some (PNumber x).

Definition is_object (v : value) : Prop := exists props, v = VObject props.

End Dyn.

(** ** Sample data *)

Definition sample (i n c : string) (pr : Z) : Product :=
  {| id := i; name := n; price := pr; originalPrice := None;
     image := "/placeholder.svg"; category := c; rating := (48 # 10)%Q;
     reviews := 0; isNew := None; isSale := None |}.

Definition headphones : Product := sample "1" "Premium Wireless Headphones" "Electronics" 24999.
Definition jacket : Product := sample "2" "Designer Leather Jacket" "Fashion" 49999.
Definition watch : Product := sample "3" "Smart Fitness Watch" "Wearables" 20999.

(** Same id as [headphones], every other attribute different. *)
Definition relabelled : Product := sample "1" "Refurbished Headphones" "Outlet" 9999.

Definition line (p : Product) (q : float) : CartItem :=
  {| product_of := p; quantity := q |}.

Definition sample_cart : list CartItem :=
  [line headphones 1; line jacket 3].

(** [2^53], from which on [x + 1] is [x]. *)
Definition two53 : float := 9007199254740992%float.

(** ** Binary64 arithmetic

    Facts on [PrimFloat.add] and the comparisons with 0, through the
    specification of the primitive operations ([SpecFloat]). *)

Section Binary64.

Lemma digits2_pos_bounds (m : positive) :
  2 ^ (Z.pos (digits2_pos m) - 1) <= Z.pos m < 2 ^ Z.pos (digits2_pos m).
Proof.
  induction m as [m IH|m IH|]; simpl digits2_pos;
    rewrite ?Pos2Z.inj_succ.
  - replace (Z.succ (Z.pos (digits2_pos m)) - 1) with (Z.succ (Z.pos (digits2_pos m) - 1)) by lia.
    rewrite !Z.pow_succ_r by lia. lia.
  - replace (Z.succ (Z.pos (digits2_pos m)) - 1) with (Z.succ (Z.pos (digits2_pos m) - 1)) by lia.
    rewrite !Z.pow_succ_r by lia. lia.
  - simpl. lia.
Qed.

Lemma shr_1_m (mrs : shr_record) :
  0 <= shr_m mrs -> shr_m (shr_1 mrs) = shr_m mrs / 2 /\ 0 <= shr_m (shr_1 mrs).
Proof.
  destruct mrs as [m r s]. cbn [shr_m]. intros Hm.
  destruct m as [|[p|p|]|p]; cbn [shr_1 shr_m]; try lia; (split; [|lia]).
  - reflexivity.
  - apply Z.div_unique with 1; lia.
  - apply Z.div_unique with 0; lia.
  - reflexivity.
Qed.

Lemma pow2_xO (p : positive) : 2 ^ Z.pos p~0 = 2 ^ Z.pos p * 2 ^ Z.pos p.
Proof. replace (Z.pos p~0) with (Z.pos p + Z.pos p) by lia. apply Z.pow_add_r; lia. Qed.

Lemma pow2_xI (p : positive) : 2 ^ Z.pos p~1 = 2 * (2 ^ Z.pos p * 2 ^ Z.pos p).
Proof.
  replace (Z.pos p~1) with (Z.succ (Z.pos p + Z.pos p)) by lia.
  rewrite Z.pow_succ_r, Z.pow_add_r by lia. reflexivity.
Qed.

Lemma pow2_pos (z : Z) : 0 < 2 ^ z \/ z < 0.
Proof. destruct (Z.le_gt_cases 0 z); [left; now apply Z.pow_pos_nonneg|now right]. Qed.

Lemma iter_pos_shr_m (p : positive) : forall mrs,
  0 <= shr_m mrs ->
  shr_m (SpecFloat.iter_pos shr_1 p mrs) = shr_m mrs / 2 ^ Z.pos p
  /\ 0 <= shr_m (SpecFloat.iter_pos shr_1 p mrs).
Proof.
  assert (Hp : forall q : positive, 0 < 2 ^ Z.pos q)
    by (intros q; apply Z.pow_pos_nonneg; lia).
  induction p as [p IH|p IH|]; intros mrs Hm; cbn [SpecFloat.iter_pos].
  - destruct (shr_1_m mrs Hm) as [E1 H1].
    destruct (IH _ H1) as [E2 H2]. destruct (IH _ H2) as [E3 H3].
    split; [|exact H3]. rewrite E3, E2, E1, pow2_xI.
    pose proof (Hp p). rewrite !Z.div_div by lia. reflexivity.
  - destruct (IH _ Hm) as [E2 H2]. destruct (IH _ H2) as [E3 H3].
    split; [|exact H3]. rewrite E3, E2, pow2_xO.
    pose proof (Hp p). rewrite !Z.div_div by lia. reflexivity.
  - destruct (shr_1_m mrs Hm) as [E1 H1]. split; [|exact H1].
    rewrite E1. reflexivity.
Qed.

Lemma shr_1_exact (M : Z) :
  0 <= M ->
  shr_1 {| shr_m := M * 2; shr_r := false; shr_s := false |}
  = {| shr_m := M; shr_r := false; shr_s := false |}.
Proof.
  intros HM. destruct M as [|m|m]; [reflexivity| |lia].
  replace (Z.pos m * 2) with (Z.pos m~0) by lia. reflexivity.
Qed.

Lemma iter_pos_shr_exact (p : positive) : forall M,
  0 <= M ->
  SpecFloat.iter_pos shr_1 p
    {| shr_m := M * 2 ^ Z.pos p; shr_r := false; shr_s := false |}
  = {| shr_m := M; shr_r := false; shr_s := false |}.
Proof.
  assert (Hp : forall q : positive, 0 < 2 ^ Z.pos q)
    by (intros q; apply Z.pow_pos_nonneg; lia).
  induction p as [p IH|p IH|]; intros M HM; cbn [SpecFloat.iter_pos].
  - rewrite pow2_xI.
    replace (M * (2 * (2 ^ Z.pos p * 2 ^ Z.pos p)))
      with (M * 2 ^ Z.pos p * 2 ^ Z.pos p * 2) by ring.
    pose proof (Hp p).
    rewrite shr_1_exact by nia. rewrite IH by nia. now apply IH.
  - rewrite pow2_xO.
    replace (M * (2 ^ Z.pos p * 2 ^ Z.pos p))
      with (M * 2 ^ Z.pos p * 2 ^ Z.pos p) by ring.
    pose proof (Hp p). rewrite IH by nia. now apply IH.
  - change (2 ^ 1) with 2. now apply shr_1_exact.
Qed.

Lemma iter_xO_spec (m d : positive) :
  Z.pos (Pos.iter xO m d) = Z.pos m * 2 ^ Z.pos d
  /\ digits2_pos (Pos.iter xO m d) = (digits2_pos m + d)%positive.
Proof.
  induction d as [|d [IH1 IH2]] using Pos.peano_ind.
  - simpl. split; [lia|]. now rewrite Pos.add_1_r.
  - rewrite Pos.iter_succ. split.
    + rewrite Pos2Z.inj_xO, IH1, Pos2Z.inj_succ, Z.pow_succ_r by lia. ring.
    + cbn [digits2_pos]. rewrite IH2. lia.
Qed.

Lemma shr_fexp_canonical (k : positive) (c : Z) :
  canonical_mantissa prec emax k c = true ->
  shr_fexp prec emax (Z.pos k) c loc_Exact
  = ({| shr_m := Z.pos k; shr_r := false; shr_s := false |}, c).
Proof.
  unfold canonical_mantissa, shr_fexp. intros H. apply Z.eqb_eq in H.
  cbn [Zdigits2]. rewrite H, Z.sub_diag. reflexivity.
Qed.

Lemma shr_fexp_exact (x k : positive) (ex c : Z) :
  canonical_mantissa prec emax k c = true ->
  ex < c -> Z.pos x = Z.pos k * 2 ^ (c - ex) ->
  shr_fexp prec emax (Z.pos x) ex loc_Exact
  = ({| shr_m := Z.pos k; shr_r := false; shr_s := false |}, c).
Proof.
  unfold canonical_mantissa, shr_fexp. intros H Hlt Hx. apply Z.eqb_eq in H.
  destruct (c - ex) as [|d|d] eqn:Hd; try lia.
  destruct (iter_xO_spec k d) as [Hv Hdig]. rewrite <- Hv in Hx.
  injection Hx as ->. cbn [Zdigits2]. rewrite Hdig, Pos2Z.inj_add.
  replace (Z.pos (digits2_pos k) + Z.pos d + ex)
    with (Z.pos (digits2_pos k) + c) by lia.
  rewrite H, Hd. cbn [shr shr_record_of_loc]. rewrite Hv.
  rewrite iter_pos_shr_exact by lia. f_equal. lia.
Qed.

Lemma binary_round_aux_exact (s : bool) (x k : positive) (ex c : Z) :
  bounded prec emax k c = true ->
  ex <= c -> Z.pos x = Z.pos k * 2 ^ (c - ex) ->
  binary_round_aux prec emax s (Z.pos x) ex loc_Exact = S754_finite s k c.
Proof.
  unfold bounded. intros Hb Hle Hx. apply andb_prop in Hb as [Hcan Hmax].
  unfold binary_round_aux.
  assert (H1 : shr_fexp prec emax (Z.pos x) ex loc_Exact
               = ({| shr_m := Z.pos k; shr_r := false; shr_s := false |}, c)).
  { destruct (Z.eq_dec ex c) as [->|Hne].
    - rewrite Z.sub_diag in Hx. simpl in Hx. replace x with k by lia.
      now apply shr_fexp_canonical.
    - apply shr_fexp_exact; [exact Hcan|lia|exact Hx]. }
  rewrite H1. cbn [shr_m loc_of_shr_record round_nearest_even].
  rewrite (shr_fexp_canonical k c Hcan). cbn [shr_m]. now rewrite Hmax.
Qed.

(** Rounding a value that a bounded mantissa and exponent represent. *)
Lemma binary_round_exact (s : bool) (m k : positive) (e c : Z) (o : Z) :
  bounded prec emax k c = true ->
  0 <= e + o -> 0 <= c + o ->
  Z.pos m * 2 ^ (e + o) = Z.pos k * 2 ^ (c + o) ->
  binary_round prec emax s m e = S754_finite s k c.
Proof.
  intros Hb He Hc Hv. unfold binary_round.
  pose proof Hb as Hb'. unfold bounded in Hb'.
  apply andb_prop in Hb' as [Hcan _]. unfold canonical_mantissa in Hcan.
  apply Z.eqb_eq in Hcan.
  destruct (Z.lt_ge_cases c e) as [Hlt|Hge].
  - (* the mantissa is shifted left to the exponent [c] *)
    assert (Hk : Z.pos k = Z.pos m * 2 ^ (e - c)).
    { replace (e + o) with ((e - c) + (c + o)) in Hv by lia.
      rewrite (Z.pow_add_r 2 (e - c) (c + o)), Z.mul_assoc in Hv by lia.
      assert (0 < 2 ^ (c + o)) by (apply Z.pow_pos_nonneg; lia).
      apply Z.mul_reg_r in Hv; lia. }
    destruct (e - c) as [|d|d] eqn:Hd; try lia.
    destruct (iter_xO_spec m d) as [Hv' Hdig]. rewrite <- Hv' in Hk.
    injection Hk as ->.
    assert (Hf : fexp prec emax (Z.pos (digits2_pos m) + e) = c).
    { etransitivity; [|exact Hcan]. f_equal. rewrite Hdig, Pos2Z.inj_add. lia. }
    rewrite Hf. unfold shl_align.
    replace (c - e) with (Z.neg d) by lia.
    apply binary_round_aux_exact; [exact Hb|lia|].
    rewrite Z.sub_diag. simpl. lia.
  - assert (Hm : Z.pos m = Z.pos k * 2 ^ (c - e)).
    { replace (c + o) with ((c - e) + (e + o)) in Hv by lia.
      rewrite (Z.pow_add_r 2 (c - e) (e + o)), Z.mul_assoc in Hv by lia.
      assert (0 < 2 ^ (e + o)) by (apply Z.pow_pos_nonneg; lia).
      apply Z.mul_reg_r in Hv; lia. }
    assert (Hf : fexp prec emax (Z.pos (digits2_pos m) + e) = c).
    { etransitivity; [|exact Hcan]. f_equal.
      destruct (c - e) as [|d|d] eqn:Hd; try lia.
      - simpl in Hm. replace m with k by lia. lia.
      - destruct (iter_xO_spec k d) as [Hv' Hdig]. rewrite <- Hv' in Hm.
        injection Hm as ->. rewrite Hdig, Pos2Z.inj_add. lia. }
    rewrite Hf. unfold shl_align.
    destruct (c - e) as [|d|d] eqn:Hd; try lia;
      apply binary_round_aux_exact; try exact Hb; try lia;
      rewrite Hd; exact Hm.
Qed.

Lemma represents_exists (n : positive) :
  Z.pos n <= 2 ^ 53 -> exists k c, represents (Z.pos n) k c.
Proof.
  intros Hn. pose proof (digits2_pos_bounds n) as [Hlo Hhi].
  set (D := Z.pos (digits2_pos n)) in *.
  assert (HD : 1 <= D <= 54).
  { split; [unfold D; lia|].
    destruct (Z.le_gt_cases D 54) as [H|H]; [exact H|exfalso].
    assert (2 ^ 54 <= 2 ^ (D - 1)) by (apply Z.pow_le_mono_r; lia).
    change (2 ^ 54) with 18014398509481984 in *.
    change (2 ^ 53) with 9007199254740992 in *. lia. }
  destruct (Z.eq_dec D 54) as [E54|N54].
  - exists 4503599627370496%positive, 1. unfold represents.
    split; [reflexivity|]. split; [lia|].
    rewrite E54 in Hlo. change (2 ^ (54 - 1)) with 9007199254740992 in Hlo.
    change (2 ^ 53) with 9007199254740992 in Hn.
    replace (Z.pos n) with 9007199254740992 by lia. reflexivity.
  - destruct (Z.eq_dec D 53) as [E53|N53].
    + exists n, 0. unfold represents. split; [|split; [lia|reflexivity]].
      unfold bounded, canonical_mantissa. fold D. rewrite E53. reflexivity.
    + destruct (53 - D) as [|d|d] eqn:Hd; try lia.
      destruct (iter_xO_spec n d) as [Hv Hdig].
      exists (Pos.iter xO n d), (D - 53). unfold represents.
      split; [|split; [lia|]].
      * unfold bounded, canonical_mantissa. rewrite Hdig, Pos2Z.inj_add.
        fold D. replace (D + Z.pos d + (D - 53)) with D by lia.
        unfold fexp, SpecFloat.emin, prec, emax.
        apply andb_true_intro. split; [apply Z.eqb_eq|apply Z.leb_le]; lia.
      * rewrite Hv, <- Z.mul_assoc, <- Z.pow_add_r by lia.
        f_equal. f_equal. lia.
Qed.

Lemma Prim2SF_num (n : positive) (k : positive) (c : Z) :
  represents (Z.pos n) k c -> Prim2SF (num (Z.pos n)) = S754_finite false k c.
Proof.
  intros (Hb & Hc & Hv). unfold num. cbn [binary_normalize].
  rewrite (binary_round_exact false n k 0 c 52 Hb); [|lia|lia|].
  - now apply Prim2SF_SF2Prim.
  - rewrite Hv. reflexivity.
Qed.

Lemma num_add (a b : Z) :
  0 <= a -> 0 <= b -> a + b <= 2 ^ 53 -> (num a + num b)%float = num (a + b).
Proof.
  intros Ha Hb Hab. apply Prim2SF_inj. rewrite add_spec.
  destruct a as [|a|a]; [|destruct b as [|b|b]|]; try lia.
  - change (Prim2SF (num 0)) with (S754_zero false). rewrite Z.add_0_l.
    destruct b as [|b|b]; [reflexivity| |lia].
    destruct (represents_exists b) as (k & c & Hr); [lia|].
    rewrite (Prim2SF_num b k c Hr). reflexivity.
  - rewrite Z.add_0_r. change (Prim2SF (num 0)) with (S754_zero false).
    destruct (represents_exists a) as (k & c & Hr); [lia|].
    rewrite (Prim2SF_num a k c Hr). reflexivity.
  - destruct (represents_exists a) as (ka & ca & Hra); [lia|].
    destruct (represents_exists b) as (kb & cb & Hrb); [lia|].
    destruct (represents_exists (a + b)) as (k & c & Hr); [lia|].
    change (Z.pos a + Z.pos b) with (Z.pos (a + b)).
    rewrite (Prim2SF_num a ka ca Hra), (Prim2SF_num b kb cb Hrb),
      (Prim2SF_num (a + b) k c Hr).
    destruct Hra as (_ & Hca & Hva). destruct Hrb as (_ & Hcb & Hvb).
    destruct Hr as (Hbd & Hc & Hv).
    unfold SF64add, SFadd. cbn [cond_Zopp].
    set (ez := Z.min ca cb).
    assert (HA : Z.pos (fst (shl_align ka ca ez)) = Z.pos ka * 2 ^ (ca - ez)).
    { unfold shl_align. destruct (ez - ca) as [|d|d] eqn:Hd.
      - replace (ca - ez) with 0 by lia. simpl. lia.
      - unfold ez in Hd. lia.
      - cbn [fst]. rewrite (proj1 (iter_xO_spec ka d)). f_equal. f_equal. lia. }
    assert (HB : Z.pos (fst (shl_align kb cb ez)) = Z.pos kb * 2 ^ (cb - ez)).
    { unfold shl_align. destruct (ez - cb) as [|d|d] eqn:Hd.
      - replace (cb - ez) with 0 by lia. simpl. lia.
      - unfold ez in Hd. lia.
      - cbn [fst]. rewrite (proj1 (iter_xO_spec kb d)). f_equal. f_equal. lia. }
    change (Z.pos (fst (shl_align ka ca ez)) + Z.pos (fst (shl_align kb cb ez)))
      with (Z.pos (fst (shl_align ka ca ez) + fst (shl_align kb cb ez))).
    cbn [binary_normalize].
    apply (binary_round_exact false _ k ez c 52 Hbd); [unfold ez; lia|lia|].
    rewrite Pos2Z.inj_add, HA, HB, Z.mul_add_distr_r.
    rewrite <- !Z.mul_assoc, <- !Z.pow_add_r by (unfold ez; lia).
    replace (ca - ez + (ez + 52)) with (ca + 52) by lia.
    replace (cb - ez + (ez + 52)) with (cb + 52) by lia.
    rewrite Hva, Hvb, Hv. rewrite Pos2Z.inj_add. ring.
Qed.

Lemma shr_fexp_pos (y : positive) (e : Z) (l : location) :
  emin <= e ->
  0 < shr_m (fst (shr_fexp prec emax (Z.pos y) e l))
  /\ emin <= snd (shr_fexp prec emax (Z.pos y) e l).
Proof.
  intros He. unfold shr_fexp, shr. cbn [Zdigits2].
  assert (Hrec : shr_m (shr_record_of_loc (Z.pos y) l) = Z.pos y)
    by (destruct l as [|[]]; reflexivity).
  destruct (fexp prec emax (Z.pos (digits2_pos y) + e) - e) as [|p|p] eqn:Hn;
    cbn [fst snd]; rewrite ?Hrec; try (split; lia).
  assert (Hp : Z.pos p = Z.pos (digits2_pos y) - 53).
  { unfold fexp, SpecFloat.emin, prec, emax in Hn, He. lia. }
  destruct (iter_pos_shr_m p (shr_record_of_loc (Z.pos y) l)) as [E _];
    [rewrite Hrec; lia|].
  rewrite E, Hrec. split; [|lia].
  pose proof (digits2_pos_bounds y) as [Hlo _].
  replace (Z.pos (digits2_pos y) - 1) with (52 + Z.pos p) in Hlo by lia.
  rewrite Z.pow_add_r in Hlo by lia.
  assert (H2p : 0 < 2 ^ Z.pos p) by (apply Z.pow_pos_nonneg; lia).
  assert (2 ^ 52 <= Z.pos y / 2 ^ Z.pos p).
  { apply Z.div_le_lower_bound; [exact H2p|]. lia. }
  change (2 ^ 52) with 4503599627370496 in *. lia.
Qed.

Lemma round_nearest_even_pos (m : Z) (l : location) :
  0 < m -> 0 < round_nearest_even m l.
Proof.
  intros Hm. destruct l as [|[]]; cbn [round_nearest_even];
    try destruct (Z.even m); lia.
Qed.

Lemma binary_round_aux_pos (y : positive) (e : Z) (l : location) :
  emin <= e -> positive_result (binary_round_aux prec emax false (Z.pos y) e l).
Proof.
  intros He. unfold binary_round_aux.
  destruct (shr_fexp_pos y e l He) as [H1 H1e].
  destruct (shr_fexp prec emax (Z.pos y) e l) as [mrs' e'].
  cbn [fst snd] in H1, H1e.
  pose proof (round_nearest_even_pos _ (loc_of_shr_record mrs') H1) as Hr.
  destruct (round_nearest_even (shr_m mrs') (loc_of_shr_record mrs'))
    as [|y1|y1]; try lia.
  destruct (shr_fexp_pos y1 e' loc_Exact H1e) as [H2 _].
  destruct (shr_fexp prec emax (Z.pos y1) e' loc_Exact) as [mrs'' e''].
  cbn [fst] in H2. destruct (shr_m mrs'') as [|m2|m2]; try lia.
  destruct (e'' <=? emax - prec); [right; eauto|now left].
Qed.

Lemma binary_round_pos (m : positive) (e : Z) :
  emin <= e -> positive_result (binary_round prec emax false m e).
Proof.
  intros He. unfold binary_round, shl_align.
  assert (Hf : emin <= fexp prec emax (Z.pos (digits2_pos m) + e))
    by (unfold fexp; lia).
  destruct (fexp prec emax (Z.pos (digits2_pos m) + e) - e);
    now apply binary_round_aux_pos.
Qed.

Lemma SFleb_zero (x : spec_float) :
  SFleb x (S754_zero false) = negb (not_le0 x).
Proof. destruct x as [[]|[]| |[] m e]; reflexivity. Qed.

Lemma bounded_emin (m : positive) (e : Z) :
  bounded prec emax m e = true -> emin <= e.
Proof.
  unfold bounded, canonical_mantissa. intros H.
  apply andb_prop in H as [H _]. apply Z.eqb_eq in H.
  unfold fexp in H. lia.
Qed.

Lemma SF64add_not_le0 (x y : spec_float) :
  valid_binary x = true -> valid_binary y = true ->
  not_le0 x = true -> not_le0 y = true -> not_le0 (SF64add x y) = true.
Proof.
  intros Vx Vy Hx Hy.
  destruct x as [[]|[]| |[] mx ex]; try discriminate;
    destruct y as [[]|[]| |[] my ey]; try discriminate; try reflexivity.
  cbn [valid_binary] in Vx, Vy.
  pose proof (bounded_emin _ _ Vx). pose proof (bounded_emin _ _ Vy).
  unfold SF64add, SFadd. cbn [cond_Zopp].
  change (Z.pos (fst (shl_align mx ex (Z.min ex ey)))
          + Z.pos (fst (shl_align my ey (Z.min ex ey))))
    with (Z.pos (fst (shl_align mx ex (Z.min ex ey))
                 + fst (shl_align my ey (Z.min ex ey)))).
  cbn [binary_normalize].
  destruct (binary_round_pos
              (fst (shl_align mx ex (Z.min ex ey))
               + fst (shl_align my ey (Z.min ex ey))) (Z.min ex ey))
    as [->|(m & e & ->)]; [lia|reflexivity|reflexivity].
Qed.

Lemma leb_zero (x : float) : (x <=? 0)%float = negb (not_le0 (Prim2SF x)).
Proof. rewrite leb_spec. apply SFleb_zero. Qed.

Lemma add_not_le0 (x y : float) :
  (x <=? 0)%float = false -> (y <=? 0)%float = false ->
  (x + y <=? 0)%float = false.
Proof.
  rewrite !leb_zero, add_spec, !Bool.negb_false_iff.
  apply SF64add_not_le0; apply Prim2SF_valid.
Qed.

Lemma zero_add_not_le0 (x : float) :
  (x <=? 0)%float = false -> (0 + x <=? 0)%float = false.
Proof.
  rewrite !leb_zero, add_spec, !Bool.negb_false_iff.
  change (Prim2SF 0) with (S754_zero false).
  destruct (Prim2SF x) as [[]|[]| |[] m e]; cbn; congruence.
Qed.

Lemma ltb_zero_not_leb (x : float) :
  (0 <? x)%float = true -> (x <=? 0)%float = false.
Proof.
  rewrite ltb_spec, leb_zero. change (Prim2SF 0) with (S754_zero false).
  destruct (Prim2SF x) as [[]|[]| |[] m e]; cbn; congruence.
Qed.

Lemma leb_ltb_zero (x : float) :
  (x <=? 0)%float = true -> (0 <? x)%float = false.
Proof.
  rewrite ltb_spec, leb_zero. change (Prim2SF 0) with (S754_zero false).
  destruct (Prim2SF x) as [[]|[]| |[] m e]; cbn; congruence.
Qed.

Lemma num_pos (n : Z) :
  0 < n <= 2 ^ 53 ->
  (0 <? num n)%float = true /\ (num n <=? 0)%float = false
  /\ int_value (num n) = Some n.
Proof.
  intros Hn. destruct n as [|n|n]; try lia.
  destruct (represents_exists n) as (k & c & Hr); [lia|].
  pose proof (Prim2SF_num n k c Hr) as E.
  destruct Hr as (Hb & Hc & Hv).
  rewrite ltb_spec, leb_zero. unfold int_value. rewrite E.
  split; [reflexivity|]. split; [reflexivity|].
  destruct (Z.leb_spec 0 c) as [H0|H0]; cbn [cond_Zopp].
  - f_equal. replace (c + 52) with (c + 52)%Z in Hv by lia.
    rewrite Z.pow_add_r, Z.mul_assoc in Hv by lia.
    apply Z.mul_reg_r in Hv; lia.
  - assert (Hk : Z.pos k = Z.pos n * 2 ^ (- c)).
    { replace 52 with (- c + (c + 52)) in Hv at 2 by lia.
      rewrite (Z.pow_add_r 2 (- c) (c + 52)), Z.mul_assoc in Hv by lia.
      assert (0 < 2 ^ (c + 52)) by (apply Z.pow_pos_nonneg; lia).
      apply Z.mul_reg_r in Hv; lia. }
    assert (0 < 2 ^ (- c)) by (apply Z.pow_pos_nonneg; lia).
    rewrite Hk, Z.mod_mul, Z.div_mul by lia. reflexivity.
Qed.

End Binary64.

(** ** Auxiliary facts on the list operations *)

Section ListFacts.

Context {A : Type}.

Lemma filter_all_true (f : A -> bool) (l : list A) :
  (forall x, In x l -> f x = true) -> List.filter f l = l.
Proof.
  induction l as [|a l IH]; intros H; simpl; [reflexivity|].
  rewrite (H a (or_introl eq_refl)). f_equal. apply IH.
  intros x Hx. apply H. now right.
Qed.

Lemma map_all_id (f : A -> A) (l : list A) :
  (forall x, In x l -> f x = x) -> List.map f l = l.
Proof.
  induction l as [|a l IH]; intros H; simpl; [reflexivity|].
  rewrite (H a (or_introl eq_refl)). f_equal. apply IH.
  intros x Hx. apply H. now right.
Qed.

Lemma filter_sublist (f : A -> bool) (l : list A) :
  List.filter f l `sublist_of` l.
Proof.
  induction l as [|a l IH]; simpl; [constructor|].
  destruct (f a); now constructor.
Qed.

Lemma NoDup_map_filter {B : Type} (g : A -> B) (f : A -> bool) (l : list A) :
  NoDup (List.map g l) -> NoDup (List.map g (List.filter f l)).
Proof.
  induction l as [|a l IH]; simpl; intros H; [constructor|].
  apply NoDup_cons in H as [Hnin Hnd].
  destruct (f a); simpl; [|auto].
  apply NoDup_cons. split; [|auto].
  intros Hin. apply Hnin.
  apply list_elem_of_In in Hin. apply list_elem_of_In.
  apply in_map_iff in Hin as (x & Hx & Hin).
  apply in_map_iff. exists x. split; [exact Hx|].
  apply filter_In in Hin. tauto.
Qed.

Lemma lookup_map {B : Type} (f : A -> B) (l : list A) (i : nat) :
  List.map f l !! i = f <$> l !! i.
Proof.
  revert i. induction l as [|a l IH]; intros [|i]; simpl; auto.
Qed.

End ListFacts.

(** ** The cart handlers, case by case *)

Section CartFacts.

Import Index.

Implicit Types (cart prev : list CartItem) (item : CartItem)
  (product : Product) (productId : string).

Lemma absent_not_in_ids productId cart :
  absent productId cart <-> ~ In productId (List.map item_id cart).
Proof.
  unfold absent. rewrite in_map_iff. split.
  - intros H (item & Hid & Hin). exact (H item Hin Hid).
  - intros H item Hin Hid. apply H. now exists item.
Qed.

(** In a cart with unique ids, the entries around one entry do not carry
    its id. *)
Lemma unique_ids_split l1 item l2 :
  unique_ids (l1 ++ item :: l2) ->
  absent (item_id item) l1 /\ absent (item_id item) l2.
Proof.
  unfold unique_ids. rewrite List.map_app. simpl. intros H.
  apply NoDup_ListNoDup, NoDup_remove_2 in H.
  split; apply absent_not_in_ids; intros Hin; apply H, in_or_app; auto.
Qed.

Lemma find_absent productId cart :
  absent productId cart ->
  List.find (fun item => String.eqb (item_id item) productId) cart = None.
Proof.
  induction cart as [|a cart IH]; intros H; simpl; [reflexivity|].
  destruct (String.eqb_spec (item_id a) productId) as [Heq|_].
  - exfalso. exact (H a (or_introl eq_refl) Heq).
  - apply IH. intros item Hin. apply H. now right.
Qed.

Lemma find_present productId cart item :
  In item cart -> item_id item = productId ->
  exists existingItem,
    List.find (fun item => String.eqb (item_id item) productId) cart
    = Some existingItem.
Proof.
  intros Hin Hid.
  destruct (List.find _ cart) as [e|] eqn:Hfind; [now exists e|].
  apply (find_none _ _ Hfind) in Hin. simpl in Hin.
  rewrite Hid, String.eqb_refl in Hin. discriminate.
Qed.

(** Rewriting the entries that carry an id, on a list split around the
    only entry that does. *)
Lemma map_on_id_split (f : CartItem -> CartItem) productId l1 item l2 :
  absent productId l1 -> absent productId l2 -> item_id item = productId ->
  List.map (fun item => if String.eqb (item_id item) productId
                        then f item else item) (l1 ++ item :: l2)
  = l1 ++ f item :: l2.
Proof.
  intros H1 H2 Hid. rewrite List.map_app. simpl.
  rewrite Hid, String.eqb_refl.
  rewrite !map_all_id; [reflexivity| |].
  - intros x Hx. destruct (String.eqb_spec (item_id x) productId) as [E|_];
      [destruct (H2 x Hx E)|reflexivity].
  - intros x Hx. destruct (String.eqb_spec (item_id x) productId) as [E|_];
      [destruct (H1 x Hx E)|reflexivity].
Qed.

Lemma map_on_id_absent (f : CartItem -> CartItem) productId cart :
  absent productId cart ->
  List.map (fun item => if String.eqb (item_id item) productId
                        then f item else item) cart = cart.
Proof.
  intros H. apply map_all_id. intros x Hx.
  destruct (String.eqb_spec (item_id x) productId) as [E|_];
    [destruct (H x Hx E)|reflexivity].
Qed.

(** Rewriting quantities leaves the sequence of ids as it was. *)
Lemma map_on_id_ids (g : CartItem -> float) productId cart :
  List.map item_id
    (List.map (fun item => if String.eqb (item_id item) productId
                           then with_quantity item (g item) else item) cart)
  = List.map item_id cart.
Proof.
  rewrite List.map_map. apply List.map_ext. intros a.
  now destruct (String.eqb (item_id a) productId).
Qed.

Lemma addToCart_absent product cart :
  absent (id product) cart ->
  addToCart product cart = cart ++ [line product 1].
Proof. intros H. unfold addToCart. now rewrite find_absent. Qed.

Lemma addToCart_present product cart item :
  In item cart -> item_id item = id product ->
  addToCart product cart
  = List.map (fun item => if String.eqb (item_id item) (id product)
                          then with_quantity item (quantity item + 1)
                          else item) cart.
Proof.
  intros Hin Hid. unfold addToCart.
  now destruct (find_present _ _ _ Hin Hid) as [e ->].
Qed.

(** Every cart either has an entry with the id or has none. *)
Lemma present_or_absent productId cart :
  (exists item, In item cart /\ item_id item = productId)
  \/ absent productId cart.
Proof.
  induction cart as [|a cart [(item & Hin & Hid)|IH]].
  - right. intros item [].
  - left. exists item. split; [now right|exact Hid].
  - destruct (String.eqb_spec (item_id a) productId) as [E|N].
    + left. exists a. split; [now left|exact E].
    + right. intros item [<-|Hin]; [exact N|now apply IH].
Qed.

Lemma removeFromCart_absent productId cart :
  absent productId cart -> removeFromCart productId cart = cart.
Proof.
  intros H. apply filter_all_true. intros x Hx.
  destruct (String.eqb_spec (item_id x) productId) as [E|_];
    [destruct (H x Hx E)|reflexivity].
Qed.

Lemma removeFromCart_split productId l1 item l2 :
  absent productId l1 -> absent productId l2 -> item_id item = productId ->
  removeFromCart productId (l1 ++ item :: l2) = l1 ++ l2.
Proof.
  intros H1 H2 Hid. unfold removeFromCart.
  rewrite List.filter_app. simpl. rewrite Hid, String.eqb_refl. simpl.
  fold (removeFromCart productId l1). fold (removeFromCart productId l2).
  now rewrite !removeFromCart_absent.
Qed.

Lemma updateQuantity_absent productId q cart :
  absent productId cart -> updateQuantity productId q cart = cart.
Proof.
  intros H. unfold updateQuantity. destruct (q <=? 0)%float.
  - now apply removeFromCart_absent.
  - now apply map_on_id_absent.
Qed.

End CartFacts.
(** ** The cart operations *)

(** A session on the sample products: the second add of id "1" passes a
    product with other attributes and only bumps the stored entry. *)
Example session_run :
  Index.run [Index.AddToCart headphones; Index.AddToCart jacket;
             Index.AddToCart relabelled; Index.UpdateQuantity "2" 5;
             Index.UpdateQuantity "7" 4; Index.RemoveFromCart "3"]
  = [line headphones 2; line jacket 5].
Proof. reflexivity. Qed.

Example session_badge :
  Index.cartItemsCount [line headphones 2; line jacket 5] = 7%float.
Proof. reflexivity. Qed.

(** Numbers that the guard [quantity <= 0] lets through. *)
Example session_fraction :
  Index.run [Index.AddToCart headphones; Index.UpdateQuantity "1" 0.5]
  = [line headphones 0.5].
Proof. reflexivity. Qed.

Example session_nan :
  Index.run [Index.AddToCart headphones; Index.UpdateQuantity "1" nan]
  = [line headphones nan].
Proof. reflexivity. Qed.

(** C2 (amended). [addToCart product]: in a cart with unique ids, when a
    line item with the product's id exists the result is the same sequence
    with that item's quantity replaced by the binary64 sum [quantity + 1],
    at the same position; this is the quantity incremented by exactly 1
    whenever the quantity is an integer from 0 to [2^53 - 1].  When no line
    item has the id, the result is the same sequence followed by a new
    line item of quantity 1. *)
Theorem addToCart_spec (cart : list CartItem) (product : Product) :
  unique_ids cart ->
  (forall l1 item l2,
      cart = l1 ++ item :: l2 -> item_id item = id product ->
      Index.addToCart product cart
      = l1 ++ {| product_of := product_of item;
                 quantity := (quantity item + 1)%float |} :: l2
      /\ forall n : Z, 0 <= n < 2 ^ 53 -> quantity item = num n ->
           Index.addToCart product cart
           = l1 ++ {| product_of := product_of item;
                      quantity := num (n + 1) |} :: l2)
  /\ (absent (id product) cart ->
      Index.addToCart product cart
      = cart ++ [ {| product_of := product; quantity := 1%float |} ]).
Proof.
  intros Huniq. split.
  - intros l1 item l2 -> Hid.
    destruct (unique_ids_split _ _ _ Huniq) as [H1 H2]. rewrite Hid in H1, H2.
    assert (Hres : Index.addToCart product (l1 ++ item :: l2)
                   = l1 ++ Index.with_quantity item (quantity item + 1)%float :: l2).
    { rewrite (addToCart_present product _ item);
        [|apply in_or_app; right; now left|exact Hid].
      now rewrite (map_on_id_split
                     (fun item => Index.with_quantity item (quantity item + 1)%float)). }
    split; [exact Hres|].
    intros n Hn Hq. rewrite Hres. unfold Index.with_quantity. rewrite Hq.
    change 1%float with (num 1). rewrite num_add by lia. reflexivity.
  - apply addToCart_absent.
Qed.

Lemma sample_cart_unique : unique_ids sample_cart.
Proof.
  unfold unique_ids. apply NoDup_ListNoDup. simpl.
  repeat constructor; simpl; intuition discriminate.
Defined.

Lemma addToCart_spec_witness :
  Index.addToCart relabelled sample_cart = [line headphones (num (1 + 1)); line jacket 3]
  /\ Index.addToCart watch sample_cart
     = [line headphones 1; line jacket 3; line watch 1].
Proof.
  split.
  - apply (proj2 (proj1 (addToCart_spec sample_cart relabelled sample_cart_unique)
                    [] (line headphones 1) [line jacket 3] eq_refl eq_refl) 1);
      [lia|reflexivity].
  - apply (proj2 (addToCart_spec sample_cart watch sample_cart_unique)).
    intros item [<-|[<-|[]]]; discriminate.
Defined.

(** C2 as stated fails: at the quantity [2^53] the sum [quantity + 1]
    rounds back to [2^53], so the quantity is not incremented. *)
Lemma addToCart_spec_counterexample :
  ~ (forall (cart : list CartItem) (product : Product) l1 item l2,
        unique_ids cart ->
        cart = l1 ++ item :: l2 -> item_id item = id product ->
        exists item',
          Index.addToCart product cart = l1 ++ item' :: l2
          /\ incremented_by_one (quantity item) (quantity item')).
Proof.
  intros H.
  destruct (H [line headphones two53] headphones [] (line headphones two53) [])
    as (item' & Heq & n & Hn & Hn'); [|reflexivity|reflexivity|].
  - unfold unique_ids. apply NoDup_ListNoDup. simpl.
    repeat constructor; simpl; intuition discriminate.
  - vm_compute in Heq. injection Heq as <-.
    vm_compute in Hn, Hn'. injection Hn as <-. injection Hn' as Hn'. lia.
Qed.

(** C4. [removeFromCart productId]: in a cart with unique ids, when a line
    item with the id is present the result is the same sequence with that
    item deleted, the others unchanged and in order; when no line item has
    the id the result is the input cart itself. *)
Theorem removeFromCart_spec (cart : list CartItem) (productId : string) :
  (unique_ids cart ->
   forall l1 item l2,
     cart = l1 ++ item :: l2 -> item_id item = productId ->
     Index.removeFromCart productId cart = l1 ++ l2)
  /\ (absent productId cart -> Index.removeFromCart productId cart = cart).
Proof.
  split.
  - intros Huniq l1 item l2 -> Hid.
    destruct (unique_ids_split _ _ _ Huniq) as [H1 H2]. rewrite Hid in H1, H2.
    now apply removeFromCart_split.
  - apply removeFromCart_absent.
Qed.

Lemma removeFromCart_spec_witness :
  Index.removeFromCart "1" sample_cart = [line jacket 3]
  /\ Index.removeFromCart "3" sample_cart = sample_cart.
Proof.
  split.
  - apply (proj1 (removeFromCart_spec sample_cart "1") sample_cart_unique
             [] (line headphones 1) [line jacket 3]); reflexivity.
  - apply (proj2 (removeFromCart_spec sample_cart "3")).
    intros item [<-|[<-|[]]]; discriminate.
Defined.

(** C3. [updateQuantity productId quantity]: when [quantity <= 0] the
    result is that of [removeFromCart productId] on the same cart; when
    [quantity > 0] and a line item with the id is present in a cart with
    unique ids, the result is the same sequence with only that item's
    quantity replaced by [quantity], order unchanged. *)
Theorem updateQuantity_spec (cart : list CartItem) (productId : string) (q : float) :
  ((q <=? 0)%float = true ->
   Index.updateQuantity productId q cart = Index.removeFromCart productId cart)
  /\ ((0 <? q)%float = true -> unique_ids cart ->
      forall l1 item l2,
        cart = l1 ++ item :: l2 -> item_id item = productId ->
        Index.updateQuantity productId q cart
        = l1 ++ {| product_of := product_of item; quantity := q |} :: l2).
Proof.
  unfold Index.updateQuantity. split.
  - intros Hq. now rewrite Hq.
  - intros Hq Huniq l1 item l2 -> Hid.
    rewrite (ltb_zero_not_leb q Hq).
    destruct (unique_ids_split _ _ _ Huniq) as [H1 H2]. rewrite Hid in H1, H2.
    now rewrite (map_on_id_split (fun item => Index.with_quantity item q)).
Qed.

Lemma updateQuantity_spec_witness :
  Index.updateQuantity "2" (-4) sample_cart = Index.removeFromCart "2" sample_cart
  /\ Index.updateQuantity "2" 7 sample_cart = [line headphones 1; line jacket 7].
Proof.
  split.
  - apply (proj1 (updateQuantity_spec sample_cart "2" (-4))). reflexivity.
  - apply (proj2 (updateQuantity_spec sample_cart "2" 7) eq_refl
             sample_cart_unique [line headphones 1] (line jacket 3) []);
      reflexivity.
Defined.

(** C6. From the empty cart, adding a product gives one line item with the
    product's id and quantity 1; adding it again gives the single line item
    with quantity 2; setting its quantity to 0 then gives the empty cart. *)
Theorem add_twice_then_zero (product : Product) :
  Index.run [Index.AddToCart product]
  = [ {| product_of := product; quantity := 1%float |} ]
  /\ Index.run [Index.AddToCart product; Index.AddToCart product]
     = [ {| product_of := product; quantity := 2%float |} ]
  /\ Index.run [Index.AddToCart product; Index.AddToCart product;
                Index.UpdateQuantity (id product) 0]
     = [].
Proof.
  unfold Index.run, Index.run_from. simpl.
  unfold Index.addToCart, Index.updateQuantity, Index.removeFromCart. simpl.
  unfold item_id. simpl. rewrite String.eqb_refl. simpl.
  unfold item_id. simpl. rewrite String.eqb_refl. simpl.
  auto.
Qed.


(** C10. Frame of [addToCart] on a product whose id is already in the
    cart: the cart keeps its length, every line item keeps the product
    attributes it was stored with (those of the product passed in are
    ignored), and every line item with another id is unchanged. *)
Theorem addToCart_frame (cart : list CartItem) (product : Product) :
  (exists item, In item cart /\ item_id item = id product) ->
  length (Index.addToCart product cart) = length cart
  /\ forall (i : nat) item,
       cart !! i = Some item ->
       exists item',
         Index.addToCart product cart !! i = Some item'
         /\ product_of item' = product_of item
         /\ (item_id item <> id product -> item' = item).
Proof.
  intros (e & Hin & Hid). rewrite (addToCart_present product cart e Hin Hid).
  split; [apply List.length_map|].
  intros i item Hi.
  rewrite lookup_map, Hi. simpl.
  eexists. split; [reflexivity|].
  destruct (String.eqb_spec (item_id item) (id product)) as [E|N]; simpl.
  - split; [reflexivity|]. intros N. destruct (N E).
  - split; reflexivity.
Qed.

Lemma addToCart_frame_witness :
  length (Index.addToCart relabelled sample_cart) = length sample_cart
  /\ exists item',
       Index.addToCart relabelled sample_cart !! 0%nat = Some item'
       /\ product_of item' = headphones
       /\ (item_id (line headphones 1) <> id relabelled
           -> item' = line headphones 1).
Proof.
  assert (H : exists item, In item sample_cart /\ item_id item = id relabelled)
    by (exists (line headphones 1); split; [now left|reflexivity]).
  destruct (addToCart_frame sample_cart relabelled H) as [Hlen Hframe].
  split; [exact Hlen|].
  exact (Hframe 0%nat (line headphones 1) eq_refl).
Defined.


(** ** The cart invariant *)

Section CartInvariant.

Import Index.

Lemma one_not_le0 : (1 <=? 0)%float = false.
Proof. reflexivity. Qed.

Lemma addToCart_inv product cart : cart_inv cart -> cart_inv (addToCart product cart).
Proof.
  intros [Huniq Hpos].
  destruct (present_or_absent (id product) cart) as [(e & Hin & Hid)|Habs].
  - rewrite (addToCart_present product cart e Hin Hid). split.
    + unfold unique_ids.
      now rewrite (map_on_id_ids (fun item => (quantity item + 1)%float)).
    + apply List.Forall_map. eapply Forall_impl; [exact Hpos|].
      intros a Ha. simpl in Ha.
      destruct (String.eqb (item_id a) (id product)); simpl; [|exact Ha].
      apply add_not_le0; [exact Ha|exact one_not_le0].
  - rewrite (addToCart_absent product cart Habs). split.
    + unfold unique_ids. rewrite List.map_app. simpl.
      apply NoDup_app. split; [exact Huniq|]. split.
      * intros x Hx Hx1. apply list_elem_of_singleton in Hx1. subst x.
        apply absent_not_in_ids in Habs. apply Habs.
        now apply list_elem_of_In.
      * apply NoDup_singleton.
    + apply Forall_app. split; [exact Hpos|].
      apply Forall_singleton. exact one_not_le0.
Qed.

Lemma removeFromCart_inv productId cart :
  cart_inv cart -> cart_inv (removeFromCart productId cart).
Proof.
  intros [Huniq Hpos]. split.
  - now apply NoDup_map_filter.
  - apply Forall_forall. intros item Hin.
    apply list_elem_of_In, filter_In in Hin as [Hin _].
    apply (proj1 (Forall_forall _ _) Hpos). now apply list_elem_of_In.
Qed.

Lemma updateQuantity_inv productId q cart :
  cart_inv cart -> cart_inv (updateQuantity productId q cart).
Proof.
  intros Hinv. unfold updateQuantity.
  destruct (q <=? 0)%float eqn:Hq; [now apply removeFromCart_inv|].
  destruct Hinv as [Huniq Hpos]. split.
  - unfold unique_ids. now rewrite (map_on_id_ids (fun _ => q)).
  - apply List.Forall_map. eapply Forall_impl; [exact Hpos|].
    intros a Ha. simpl in Ha.
    destruct (String.eqb (item_id a) productId); simpl; [exact Hq|exact Ha].
Qed.

Lemma apply_op_inv op cart : cart_inv cart -> cart_inv (apply_op cart op).
Proof.
  destruct op; simpl;
    [apply addToCart_inv|apply removeFromCart_inv|apply updateQuantity_inv].
Qed.

Lemma run_from_inv ops : forall cart, cart_inv cart -> cart_inv (run_from cart ops).
Proof.
  induction ops as [|op ops IH]; intros cart Hinv; simpl; [exact Hinv|].
  apply IH, apply_op_inv, Hinv.
Qed.

Lemma run_inv ops : cart_inv (run ops).
Proof. apply run_from_inv. split; [apply NoDup_nil_2|constructor]. Qed.



Lemma integer_quantities_sum cart ns :
  integer_quantities cart ns -> 0 <= sum_Z ns.
Proof. induction 1 as [|? ? ? ? [? _] _ IH]; simpl; lia. Qed.

(** The left fold of the badge is exact on integers up to [2^53]. *)
Lemma cartItemsCount_exact cart ns :
  integer_quantities cart ns -> forall a : Z,
  0 <= a -> a + sum_Z ns <= 2 ^ 53 ->
  List.fold_left (fun sum item => (sum + quantity item)%float) cart (num a)
  = num (a + sum_Z ns).
Proof.
  induction 1 as [|item n cart ns [Hn Hq] Hrest IH]; intros a Ha Hsum; simpl in *.
  - now rewrite Z.add_0_r.
  - pose proof (integer_quantities_sum _ _ Hrest).
    rewrite Hq, num_add by lia. rewrite IH by lia. f_equal. lia.
Qed.

Lemma int_value_num (n : Z) : 0 <= n <= 2 ^ 53 -> int_value (num n) = Some n.
Proof.
  intros Hn. destruct (Z.eq_dec n 0) as [->|Hne]; [reflexivity|].
  apply num_pos. lia.
Qed.

Lemma sum_quantities_exact cart ns :
  integer_quantities cart ns -> sum_Z ns <= 2 ^ 53 ->
  sum_quantities cart = Some (sum_Z ns).
Proof.
  induction 1 as [|item n cart ns [Hn Hq] Hrest IH]; intros Hsum; simpl in *;
    [reflexivity|].
  pose proof (integer_quantities_sum _ _ Hrest).
  rewrite Hq, int_value_num, IH by lia. reflexivity.
Qed.

Lemma cartItemsCount_snoc cart item :
  cartItemsCount (cart ++ [item]) = (cartItemsCount cart + quantity item)%float.
Proof. unfold cartItemsCount. now rewrite List.fold_left_app. Qed.

End CartInvariant.




(** [NaN] passes the guard as well, and is not positive. *)
Example nan_is_stored :
  Index.run [Index.AddToCart headphones; Index.UpdateQuantity "1" nan]
  = [line headphones nan]
  /\ (0 <? nan)%float = false /\ (nan <=? 0)%float = false.
Proof. repeat split. Qed.

(** C5 (amended). The badge is the binary64 sum of the quantities of the
    current line items, added from left to right starting from 0; it is
    computed from the item list of the current state and from nothing
    else.  Whenever the quantities are non-negative integers whose sum is
    at most [2^53], it is their exact sum. *)
Theorem badge_is_sum :
  Index.cartItemsCount [] = 0%float
  /\ (forall cart item,
        Index.cartItemsCount (cart ++ [item])
        = (Index.cartItemsCount cart + quantity item)%float)
  /\ (forall cart ns,
        integer_quantities cart ns -> sum_Z ns <= 2 ^ 53 ->
        Index.cartItemsCount cart = num (sum_Z ns)
        /\ int_value (Index.cartItemsCount cart) = sum_quantities cart)
  /\ (forall (events : list Event) ns,
        integer_quantities
          (cartItems (List.fold_left dispatch events initialState)) ns ->
        sum_Z ns <= 2 ^ 53 ->
        badge (List.fold_left dispatch events initialState) = num (sum_Z ns)).
Proof.
  assert (Hexact : forall cart ns,
             integer_quantities cart ns -> sum_Z ns <= 2 ^ 53 ->
             Index.cartItemsCount cart = num (sum_Z ns)).
  { intros cart ns Hint Hsum. unfold Index.cartItemsCount.
    change 0%float with (num 0).
    now rewrite (cartItemsCount_exact cart ns Hint 0). }
  split; [reflexivity|]. split; [apply cartItemsCount_snoc|]. split.
  - intros cart ns Hint Hsum. split; [now apply Hexact|].
    rewrite (Hexact cart ns Hint Hsum), (sum_quantities_exact cart ns Hint Hsum).
    apply int_value_num. pose proof (integer_quantities_sum _ _ Hint). lia.
  - intros events ns Hint Hsum. now apply Hexact.
Qed.

Lemma badge_is_sum_witness :
  Index.cartItemsCount [line headphones (num 2); line jacket (num 5)] = num (2 + (5 + 0))
  /\ int_value (Index.cartItemsCount [line headphones (num 2); line jacket (num 5)])
     = sum_quantities [line headphones (num 2); line jacket (num 5)].
Proof.
  apply (proj1 (proj2 (proj2 badge_is_sum))
           [line headphones (num 2); line jacket (num 5)] [2; 5]).
  - repeat constructor; lia.
  - simpl. lia.
Defined.

(** C5 as stated fails: on the reachable cart with the quantities [2^53]
    and 1 the badge is [2^53], one less than the sum of the quantities. *)
Lemma badge_is_sum_counterexample :
  ~ (forall ops : list Index.CartOp,
        int_value (Index.cartItemsCount (Index.run ops))
        = sum_quantities (Index.run ops)).
Proof.
  intros H.
  specialize (H [Index.AddToCart headphones; Index.UpdateQuantity "1" two53;
                 Index.AddToCart jacket]).
  vm_compute in H. discriminate H.
Qed.

(** ** The catalog view *)

Section CatalogFacts.

Lemma filter_sublist_max {A : Type} (f : A -> bool) (l k : list A) :
  k `sublist_of` l -> (forall x, In x k -> f x = true) ->
  k `sublist_of` List.filter f l.
Proof.
  intros Hsub. induction Hsub as [|x k l Hsub IH|x k l Hsub IH]; intros Hk; simpl.
  - constructor.
  - rewrite (Hk x (or_introl eq_refl)). constructor. apply IH.
    intros y Hy. apply Hk. now right.
  - destruct (f x); [constructor|]; now apply IH.
Qed.

Lemma not_All_eqb (selected : string) :
  selected <> "All"%string -> String.eqb selected "All" = false.
Proof. intros H. now apply String.eqb_neq. Qed.

End CatalogFacts.

(** C7. With "All" selected the filtered view is the whole catalog in its
    order.  With any other category selected it consists of exactly the
    catalog products whose category is that very string (comparison is
    case-sensitive), in catalog order: it is a subsequence of the catalog,
    it holds precisely the matching products, and every subsequence of
    matching catalog products is a subsequence of it.  The catalog is a
    constant, so no selection changes it. *)
Theorem filteredProducts_spec :
  ProductGrid.filteredProducts "All" = ProductGrid.mockProducts
  /\ (forall selected : string,
        selected <> "All"%string ->
        ProductGrid.filteredProducts selected `sublist_of` ProductGrid.mockProducts
        /\ (forall p, In p (ProductGrid.filteredProducts selected)
                      <-> In p ProductGrid.mockProducts /\ category p = selected)
        /\ (forall k, k `sublist_of` ProductGrid.mockProducts ->
                      (forall p, In p k -> category p = selected) ->
                      k `sublist_of` ProductGrid.filteredProducts selected))
  /\ List.map id (ProductGrid.filteredProducts "Electronics") = ["1"; "6"]%string
  /\ ProductGrid.filteredProducts "electronics" = [].
Proof.
  split; [reflexivity|]. split; [|split; reflexivity].
  intros selected Hsel. unfold ProductGrid.filteredProducts.
  rewrite (not_All_eqb selected Hsel). split; [apply filter_sublist|]. split.
  - intros p. rewrite filter_In, String.eqb_eq. reflexivity.
  - intros k Hsub Hk. apply filter_sublist_max; [exact Hsub|].
    intros p Hp. apply String.eqb_eq. now apply Hk.
Qed.

Lemma filteredProducts_spec_witness :
  ProductGrid.filteredProducts "Food" `sublist_of` ProductGrid.mockProducts
  /\ forall p, In p (ProductGrid.filteredProducts "Food")
               <-> In p ProductGrid.mockProducts /\ category p = "Food"%string.
Proof.
  destruct (proj1 (proj2 filteredProducts_spec) "Food"%string)
    as (Hsub & Hmem & _); [discriminate|].
  split; [exact Hsub|exact Hmem].
Defined.

(** C8. [toggleFavorite x] flips the membership of [x] in the favourite
    set and leaves the membership of every other id as it was; toggling
    the same id twice gives back the set one started from. *)
Theorem toggleFavorite_flip (favs : gset string) (x : string) :
  (x ∈ ProductGrid.toggleFavorite x favs <-> x ∉ favs)
  /\ (forall y : string,
        y <> x -> (y ∈ ProductGrid.toggleFavorite x favs <-> y ∈ favs))
  /\ ProductGrid.toggleFavorite x (ProductGrid.toggleFavorite x favs) = favs.
Proof.
  unfold ProductGrid.toggleFavorite. simpl.
  destruct (decide (x ∈ favs)) as [Hin|Hnin].
  - split; [|split].
    + rewrite elem_of_difference, elem_of_singleton. tauto.
    + intros y Hy. rewrite elem_of_difference, elem_of_singleton. tauto.
    + destruct (decide (x ∈ favs ∖ {[x]})) as [Hin'|_].
      * apply elem_of_difference in Hin' as [_ Hx].
        destruct Hx. now apply elem_of_singleton.
      * apply set_eq. intros y.
        rewrite elem_of_union, elem_of_difference, elem_of_singleton.
        destruct (decide (y = x)) as [->|Hy]; tauto.
  - split; [|split].
    + rewrite elem_of_union, elem_of_singleton. tauto.
    + intros y Hy. rewrite elem_of_union, elem_of_singleton. tauto.
    + destruct (decide (x ∈ favs ∪ {[x]})) as [_|Hnin'].
      * apply set_eq. intros y.
        rewrite elem_of_difference, elem_of_union, elem_of_singleton.
        split; [tauto|]. intros Hy. split; [tauto|]. now intros ->.
      * destruct Hnin'. apply elem_of_union. right. now apply elem_of_singleton.
Qed.

Lemma toggleFavorite_flip_witness :
  ("2"%string ∈ ProductGrid.toggleFavorite "1" {[ "2"%string ]}
   <-> "2"%string ∈ ({[ "2"%string ]} : gset string))
  /\ ProductGrid.toggleFavorite "1" (ProductGrid.toggleFavorite "1" {[ "2"%string ]})
     = {[ "2"%string ]}.
Proof.
  destruct (toggleFavorite_flip {[ "2"%string ]} "1"%string) as (_ & Hother & Htwice).
  split; [apply Hother; discriminate|exact Htwice].
Defined.

(** * The handlers on untyped values *)

Section DynFacts.

Import Dyn.










Lemma spread_encode_product (p : Product) (q : float) :
  spread_quantity (encode_product p) (PNumber q) = encode_item (line p q).
Proof. reflexivity. Qed.












End DynFacts.

(** The rating of the first mock product as the object carries it. *)
Example rating_of_headphones :
  Dyn.product_props headphones !! "rating"%string = Some (Dyn.PNumber 4.8).
Proof. reflexivity. Qed.


Section DynTotal.

Import Dyn.













Lemma encode_item_is_entry (item : CartItem) : is_entry (encode_item item).
Proof.
  eexists _, (quantity item). split; [reflexivity|apply lookup_insert_eq].
Qed.

End DynTotal.

(** Where the untyped handlers do throw: a product that is [null], once
    the cart has an entry whose id is read against it.  On the empty cart
    [find] calls nothing and [{ ...null, quantity: 1 }] is added. *)
Example addToCart_null :
  Dyn.addToCart Dyn.VNull [Dyn.encode_item (line headphones 1)] = Dyn.Throws
  /\ Dyn.addToCart Dyn.VNull []
     = Dyn.Returned [Dyn.VObject {[ "quantity"%string := Dyn.PNumber 1 ]}].
Proof. split; reflexivity. Qed.


(** * Further properties of the cart handlers *)

Section CartAlgebra.

Import Index.

Implicit Types (cart : list CartItem) (item : CartItem)
  (product : Product) (productId : string).

(** A cart with an entry of a given id splits around the first such entry. *)
Lemma present_split productId cart :
  (exists item, In item cart /\ item_id item = productId) ->
  exists l1 item l2, cart = l1 ++ item :: l2 /\ item_id item = productId.
Proof.
  intros (item & Hin & Hid). apply in_split in Hin as (l1 & l2 & ->).
  now exists l1, item, l2.
Qed.

Lemma removeFromCart_is_absent productId cart :
  absent productId (removeFromCart productId cart).
Proof.
  intros item Hin Hid. apply filter_In in Hin as [_ Hneq].
  rewrite Hid, String.eqb_refl in Hneq. discriminate.
Qed.

Lemma removeFromCart_app productId l1 l2 :
  removeFromCart productId (l1 ++ l2)
  = removeFromCart productId l1 ++ removeFromCart productId l2.
Proof. apply List.filter_app. Qed.

(** Removal after a rewrite of the entries with the same id. *)
Lemma removeFromCart_map_same (f : CartItem -> float) productId cart :
  removeFromCart productId
    (List.map (fun item => if String.eqb (item_id item) productId
                           then with_quantity item (f item) else item) cart)
  = removeFromCart productId cart.
Proof.
  induction cart as [|a cart IH]; simpl; [reflexivity|].
  unfold removeFromCart in *. simpl.
  destruct (String.eqb (item_id a) productId) eqn:E; simpl.
  - unfold item_id in *. simpl. rewrite E. simpl. exact IH.
  - rewrite E. simpl. now rewrite IH.
Qed.

Lemma absent_map_on_id (g : CartItem -> float) productId other cart :
  absent other cart ->
  absent other
    (List.map (fun item => if String.eqb (item_id item) productId
                           then with_quantity item (g item) else item) cart).
Proof.
  intros H. apply absent_not_in_ids. rewrite map_on_id_ids.
  now apply absent_not_in_ids.
Qed.

Lemma present_map_on_id (g : CartItem -> float) productId other cart :
  (exists item, In item cart /\ item_id item = other) ->
  exists item,
    In item (List.map (fun item => if String.eqb (item_id item) productId
                                   then with_quantity item (g item) else item)
                      cart)
    /\ item_id item = other.
Proof.
  intros (item & Hin & Hid).
  assert (Hids : In other (List.map item_id cart))
    by (apply in_map_iff; now exists item).
  rewrite <- (map_on_id_ids g productId) in Hids.
  apply in_map_iff in Hids as (item' & Hid' & Hin'). now exists item'.
Qed.

Lemma sum_Z_app (l1 l2 : list Z) : sum_Z (l1 ++ l2) = sum_Z l1 + sum_Z l2.
Proof. induction l1 as [|a l1 IH]; simpl; [reflexivity|]. rewrite IH. lia. Qed.

(** The badge of a cart of integer quantities. *)
Lemma cartItemsCount_integers cart ns :
  integer_quantities cart ns -> sum_Z ns <= 2 ^ 53 ->
  cartItemsCount cart = num (sum_Z ns).
Proof.
  intros Hint Hsum. unfold cartItemsCount. change 0%float with (num 0).
  now rewrite (cartItemsCount_exact cart ns Hint 0).
Qed.

(** A cart of integer quantities and its integers, split around an entry. *)
Lemma integer_quantities_split l1 item l2 ns :
  integer_quantities (l1 ++ item :: l2) ns ->
  exists n1 n n2,
    ns = n1 ++ n :: n2 /\ integer_quantities l1 n1 /\ integer_quantities l2 n2
    /\ 0 <= n /\ quantity item = num n.
Proof.
  intros H. apply Forall2_app_inv_l in H as (n1 & ns2 & H1 & H2 & ->).
  apply Forall2_cons_inv_l in H2 as (n & n2 & [Hn Hq] & H2 & ->).
  now exists n1, n, n2.
Qed.

Lemma integer_quantities_join l1 item l2 n1 n n2 :
  integer_quantities l1 n1 -> integer_quantities l2 n2 ->
  0 <= n -> quantity item = num n ->
  integer_quantities (l1 ++ item :: l2) (n1 ++ n :: n2).
Proof.
  intros H1 H2 Hn Hq. apply Forall2_app; [exact H1|].
  constructor; [now split|exact H2].
Qed.

(** Adding to 0 a number that is not [<= 0]. *)
Lemma fold_not_le0 cart : forall acc : float,
  no_quantity_le0 cart -> (acc <=? 0)%float = false ->
  (List.fold_left (fun sum item => (sum + quantity item)%float) cart acc <=? 0)%float
  = false.
Proof.
  induction cart as [|a cart IH]; intros acc Hcart Hacc; simpl; [exact Hacc|].
  apply Forall_cons in Hcart as [Ha Hcart].
  apply IH; [exact Hcart|]. now apply add_not_le0.
Qed.

End CartAlgebra.

(** X1. On a cart with unique ids whose quantities are non-negative
    integers with a sum [s] of at most [2^53], the badge moves by exactly
    what the handler did: [addToCart] makes it [s + 1] whether the product
    is new or not (as long as [s + 1] is at most [2^53]), removing a line
    item of quantity [n] makes it [s - n], and setting that quantity to a
    positive integer [z] makes it [s - n + z] (when at most [2^53]). *)
Theorem badge_steps (cart : list CartItem) (ns : list Z) :
  unique_ids cart -> integer_quantities cart ns -> sum_Z ns <= 2 ^ 53 ->
  (forall product,
      sum_Z ns + 1 <= 2 ^ 53 ->
      Index.cartItemsCount (Index.addToCart product cart) = num (sum_Z ns + 1))
  /\ (forall l1 item l2 n,
        cart = l1 ++ item :: l2 -> int_value (quantity item) = Some n ->
        Index.cartItemsCount (Index.removeFromCart (item_id item) cart)
        = num (sum_Z ns - n)
        /\ forall z, 0 < z -> sum_Z ns - n + z <= 2 ^ 53 ->
             Index.cartItemsCount (Index.updateQuantity (item_id item) (num z) cart)
             = num (sum_Z ns - n + z)).
Proof.
  intros Huniq Hint Hsum. split.
  - intros product Hmax.
    destruct (present_or_absent (id product) cart) as [Hpres|Habs].
    + destruct (present_split _ _ Hpres) as (l1 & item & l2 & -> & Hid).
      destruct (unique_ids_split _ _ _ Huniq) as [H1 H2]. rewrite Hid in H1, H2.
      destruct (integer_quantities_split _ _ _ _ Hint)
        as (n1 & n & n2 & -> & Hi1 & Hi2 & Hn & Hq).
      pose proof (integer_quantities_sum _ _ Hi1).
      pose proof (integer_quantities_sum _ _ Hi2).
      rewrite sum_Z_app in *. simpl in *.
      rewrite (addToCart_present product _ item);
        [|apply in_or_app; right; now left|exact Hid].
      rewrite (map_on_id_split
                 (fun item => Index.with_quantity item (quantity item + 1)%float))
        by assumption.
      rewrite (cartItemsCount_integers _ (n1 ++ (n + 1) :: n2)).
      * rewrite sum_Z_app. simpl. f_equal; lia.
      * apply integer_quantities_join; try assumption; [lia|].
        simpl. rewrite Hq. change 1%float with (num 1). apply num_add; lia.
      * rewrite sum_Z_app. simpl. lia.
    + rewrite (addToCart_absent _ _ Habs).
      rewrite (cartItemsCount_integers _ (ns ++ [1])).
      * rewrite sum_Z_app. simpl. f_equal; lia.
      * apply Forall2_app; [exact Hint|]. constructor; [|constructor].
        split; [lia|reflexivity].
      * rewrite sum_Z_app. simpl. lia.
  - intros l1 item l2 n -> Hval.
    destruct (unique_ids_split _ _ _ Huniq) as [H1 H2].
    destruct (integer_quantities_split _ _ _ _ Hint)
      as (n1 & n' & n2 & -> & Hi1 & Hi2 & Hn & Hq).
    pose proof (integer_quantities_sum _ _ Hi1).
    pose proof (integer_quantities_sum _ _ Hi2).
    rewrite sum_Z_app in *. simpl in *.
    assert (n' = n) as ->.
    { rewrite Hq, int_value_num in Hval by lia. congruence. }
    split.
    + rewrite removeFromCart_split by auto.
      rewrite (cartItemsCount_integers _ (n1 ++ n2)).
      * rewrite sum_Z_app. f_equal; lia.
      * now apply Forall2_app.
      * rewrite sum_Z_app. lia.
    + intros z Hz Hmax. unfold Index.updateQuantity.
      rewrite (proj1 (proj2 (num_pos z ltac:(lia)))).
      rewrite (map_on_id_split (fun item => Index.with_quantity item (num z)))
        by auto.
      rewrite (cartItemsCount_integers _ (n1 ++ z :: n2)).
      * rewrite sum_Z_app. simpl. f_equal; lia.
      * apply integer_quantities_join; try assumption; [lia|reflexivity].
      * rewrite sum_Z_app. simpl. lia.
Qed.

Lemma sample_cart_integers : integer_quantities sample_cart [1; 3].
Proof. repeat constructor; lia. Defined.

Lemma badge_steps_witness :
  Index.cartItemsCount (Index.addToCart relabelled sample_cart) = num (1 + (3 + 0) + 1)
  /\ Index.cartItemsCount (Index.removeFromCart "2" sample_cart)
     = num (1 + (3 + 0) - 3)
  /\ Index.cartItemsCount (Index.updateQuantity "2" (num 10) sample_cart)
     = num (1 + (3 + 0) - 3 + 10).
Proof.
  assert (Hsum : sum_Z [1; 3] <= 2 ^ 53) by (simpl; lia).
  destruct (badge_steps sample_cart [1; 3] sample_cart_unique
              sample_cart_integers Hsum) as [Hadd Hrest].
  destruct (Hrest [line headphones 1] (line jacket 3) [] 3 eq_refl eq_refl)
    as [Hrm Hupd].
  split; [apply (Hadd relabelled); simpl; lia|]. split; [exact Hrm|].
  apply (Hupd 10); simpl; lia.
Defined.

(** X2. [removeFromCart] on any list of line items: afterwards no line
    item carries the id, the line items that remain are exactly those with
    another id, in the order they had (the result is the largest
    subsequence of the cart without the id), and removing again changes
    nothing. *)
Theorem removeFromCart_exact (cart : list CartItem) (productId : string) :
  Forall (fun item => item_id item <> productId)
         (Index.removeFromCart productId cart)
  /\ (forall item, In item (Index.removeFromCart productId cart)
                   <-> In item cart /\ item_id item <> productId)
  /\ Index.removeFromCart productId cart `sublist_of` cart
  /\ (forall k, k `sublist_of` cart ->
                Forall (fun item => item_id item <> productId) k ->
                k `sublist_of` Index.removeFromCart productId cart)
  /\ Index.removeFromCart productId (Index.removeFromCart productId cart)
     = Index.removeFromCart productId cart.
Proof.
  split; [|split; [|split; [|split]]].
  - apply Forall_forall. intros item Hin. apply list_elem_of_In in Hin.
    exact (removeFromCart_is_absent productId cart item Hin).
  - intros item. unfold Index.removeFromCart. rewrite filter_In.
    rewrite Bool.negb_true_iff, String.eqb_neq. reflexivity.
  - apply filter_sublist.
  - intros k Hsub Hk. apply filter_sublist_max; [exact Hsub|].
    intros item Hin. apply Bool.negb_true_iff, String.eqb_neq.
    apply (proj1 (Forall_forall _ _) Hk). now apply list_elem_of_In.
  - apply removeFromCart_absent, removeFromCart_is_absent.
Qed.

Lemma removeFromCart_exact_witness :
  [line headphones 1] `sublist_of` Index.removeFromCart "2" sample_cart.
Proof.
  apply (proj1 (proj2 (proj2 (proj2 (removeFromCart_exact sample_cart "2"))))).
  - repeat constructor.
  - repeat constructor. discriminate.
Defined.

(** X3. Removing a product right after adding it gives the cart that
    removing it alone gives, for any list of line items; when the product
    was not in the cart, add followed by remove gives the cart back. *)
Theorem remove_after_add (cart : list CartItem) (product : Product) :
  Index.removeFromCart (id product) (Index.addToCart product cart)
  = Index.removeFromCart (id product) cart
  /\ (absent (id product) cart ->
      Index.removeFromCart (id product) (Index.addToCart product cart) = cart).
Proof.
  assert (Hmain : Index.removeFromCart (id product) (Index.addToCart product cart)
                  = Index.removeFromCart (id product) cart).
  { destruct (present_or_absent (id product) cart) as [(e & Hin & Hid)|Habs].
    - rewrite (addToCart_present product cart e Hin Hid).
      apply (removeFromCart_map_same (fun item => (quantity item + 1)%float)).
    - rewrite (addToCart_absent _ _ Habs), removeFromCart_app.
      replace (Index.removeFromCart (id product) [line product 1])
        with (@nil CartItem).
      + apply app_nil_r.
      + unfold Index.removeFromCart, item_id. simpl.
        now rewrite String.eqb_refl. }
  split; [exact Hmain|].
  intros Habs. rewrite Hmain. now apply removeFromCart_absent.
Qed.

Lemma remove_after_add_witness :
  Index.removeFromCart "3" (Index.addToCart watch sample_cart) = sample_cart.
Proof.
  apply (proj2 (remove_after_add sample_cart watch)).
  intros item [<-|[<-|[]]]; discriminate.
Defined.

(** X4. Two [updateQuantity] calls on the same id, on any list of line
    items: after a positive first quantity the second call decides alone
    (last write wins); after a first quantity [<= 0] the item is gone and
    the second call, whatever its quantity, does not bring it back. *)
Theorem updateQuantity_twice (cart : list CartItem) (productId : string) (q1 q2 : float) :
  ((0 <? q1)%float = true ->
   Index.updateQuantity productId q2 (Index.updateQuantity productId q1 cart)
   = Index.updateQuantity productId q2 cart)
  /\ ((q1 <=? 0)%float = true ->
      Index.updateQuantity productId q2 (Index.updateQuantity productId q1 cart)
      = Index.removeFromCart productId cart).
Proof.
  split; intros Hq1.
  - unfold Index.updateQuantity at 2. rewrite (ltb_zero_not_leb q1 Hq1).
    unfold Index.updateQuantity. destruct (q2 <=? 0)%float.
    + apply (removeFromCart_map_same (fun _ => q1)).
    + rewrite List.map_map. apply List.map_ext. intros a.
      destruct (String.eqb (item_id a) productId) eqn:E.
      * unfold item_id in *. simpl. now rewrite E.
      * now rewrite E.
  - unfold Index.updateQuantity at 2. rewrite Hq1.
    apply updateQuantity_absent, removeFromCart_is_absent.
Qed.

Lemma updateQuantity_twice_witness :
  Index.updateQuantity "2" 9 (Index.updateQuantity "2" 4 sample_cart)
  = Index.updateQuantity "2" 9 sample_cart
  /\ Index.updateQuantity "2" 9 (Index.updateQuantity "2" 0 sample_cart)
     = Index.removeFromCart "2" sample_cart.
Proof.
  split.
  - apply (proj1 (updateQuantity_twice sample_cart "2" 4 9)). reflexivity.
  - apply (proj2 (updateQuantity_twice sample_cart "2" 0 9)). reflexivity.
Defined.

(** X5. No handler reorders the cart or swaps the product stored in a
    line item: after [removeFromCart] the remaining products are a
    subsequence of the old ones, [updateQuantity] with a positive quantity
    keeps the sequence of products as it is (it never creates a line item),
    and [addToCart] keeps it as a prefix, followed by at most the new
    product. *)
Theorem handlers_keep_order (cart : list CartItem) :
  (forall productId,
      List.map product_of (Index.removeFromCart productId cart)
      `sublist_of` List.map product_of cart)
  /\ (forall productId q, (0 <? q)%float = true ->
        List.map product_of (Index.updateQuantity productId q cart)
        = List.map product_of cart)
  /\ (forall product,
        List.map product_of (Index.addToCart product cart)
        = List.map product_of cart
        \/ List.map product_of (Index.addToCart product cart)
           = List.map product_of cart ++ [product]).
Proof.
  split.
  { intros productId. unfold Index.removeFromCart.
    induction cart as [|a cart IH]; simpl; [constructor|].
    destruct (negb (String.eqb (item_id a) productId)); simpl;
      now constructor. }
  assert (Hmap : forall productId (g : CartItem -> float),
             List.map product_of
               (List.map (fun item => if String.eqb (item_id item) productId
                                      then Index.with_quantity item (g item)
                                      else item) cart)
             = List.map product_of cart).
  { intros productId g. rewrite List.map_map. apply List.map_ext. intros a.
    now destruct (String.eqb (item_id a) productId). }
  split.
  - intros productId q Hq. unfold Index.updateQuantity.
    rewrite (ltb_zero_not_leb q Hq). apply (Hmap productId (fun _ => q)).
  - intros product.
    destruct (present_or_absent (id product) cart) as [(e & Hin & Hid)|Habs].
    + left. rewrite (addToCart_present product cart e Hin Hid).
      apply (Hmap (id product) (fun item => (quantity item + 1)%float)).
    + right. rewrite (addToCart_absent _ _ Habs). now rewrite List.map_app.
Qed.

Lemma handlers_keep_order_witness :
  List.map product_of (Index.updateQuantity "1" 6 sample_cart)
  = List.map product_of sample_cart.
Proof.
  apply (proj1 (proj2 (handlers_keep_order sample_cart)) "1"%string 6%float).
  reflexivity.
Defined.

Section CartRuns.

Import Index.

(** Where the product of a line item comes from, one event at a time. *)
Lemma apply_op_origin (cart : list CartItem) (op : CartOp) (item : CartItem) :
  In item (apply_op cart op) ->
  (exists item0, In item0 cart /\ product_of item0 = product_of item)
  \/ op = AddToCart (product_of item).
Proof.
  destruct op as [product|productId|productId q]; simpl.
  - destruct (present_or_absent (id product) cart) as [(e & Hin & Hid)|Habs].
    + rewrite (addToCart_present product cart e Hin Hid).
      intros H. apply in_map_iff in H as (x & Hx & Hxin). left. exists x.
      split; [exact Hxin|]. subst item.
      now destruct (String.eqb (item_id x) (id product)).
    + rewrite (addToCart_absent _ _ Habs). intros H.
      apply in_app_or in H as [H|[<-|[]]]; [left; now exists item|now right].
  - intros H. apply filter_In in H as [H _]. left. now exists item.
  - unfold updateQuantity. destruct (q <=? 0)%float.
    + intros H. apply filter_In in H as [H _]. left. now exists item.
    + intros H. apply in_map_iff in H as (x & Hx & Hxin). left. exists x.
      split; [exact Hxin|]. subst item.
      now destruct (String.eqb (item_id x) productId).
Qed.

Lemma run_from_origin (ops : list CartOp) : forall cart item,
  In item (run_from cart ops) ->
  (exists item0, In item0 cart /\ product_of item0 = product_of item)
  \/ In (AddToCart (product_of item)) ops.
Proof.
  induction ops as [|op ops IH]; intros cart item Hin; simpl in Hin.
  - left. now exists item.
  - destruct (IH _ _ Hin) as [(item1 & Hin1 & Hp1)|Hops]; [|right; now right].
    destruct (apply_op_origin _ _ _ Hin1) as [(item0 & Hin0 & Hp0)|Hop].
    + left. exists item0. split; [exact Hin0|congruence].
    + right. left. now rewrite Hop, Hp1.
Qed.

Lemma run_from_snoc cart ops op :
  run_from cart (ops ++ [op]) = apply_op (run_from cart ops) op.
Proof. unfold run_from. now rewrite List.fold_left_app. Qed.

End CartRuns.

(** X6. The cart never holds a product that was not added: every line
    item of the cart reached by a sequence of events stores a product that
    some [addToCart] event of the sequence was called with. *)
Theorem cart_products_were_added (ops : list Index.CartOp) :
  Forall (fun item => In (Index.AddToCart (product_of item)) ops)
         (Index.run ops).
Proof.
  apply Forall_forall. intros item Hin. apply list_elem_of_In in Hin.
  destruct (run_from_origin ops [] item Hin) as [(item0 & [] & _)|H].
  exact H.
Qed.

(** X7. On every reachable cart the badge is 0 exactly when the cart is
    empty, and on a non-empty reachable cart the test [badge <= 0] is
    false. *)
Theorem badge_zero_iff_empty (ops : list Index.CartOp) :
  (Index.cartItemsCount (Index.run ops) = 0%float <-> Index.run ops = [])
  /\ (Index.run ops <> [] ->
      (Index.cartItemsCount (Index.run ops) <=? 0)%float = false).
Proof.
  destruct (run_inv ops) as [_ Hpos].
  assert (Hne : Index.run ops <> [] ->
                (Index.cartItemsCount (Index.run ops) <=? 0)%float = false).
  { destruct (Index.run ops) as [|a l]; [congruence|]. intros _.
    apply Forall_cons in Hpos as [Ha Hl].
    unfold Index.cartItemsCount. simpl.
    apply fold_not_le0; [exact Hl|]. now apply zero_add_not_le0. }
  split; [|exact Hne]. split.
  - intros H0. destruct (Index.run ops) as [|a l] eqn:E; [reflexivity|].
    rewrite H0 in Hne. discriminate Hne. congruence.
  - intros ->. reflexivity.
Qed.

Lemma badge_zero_iff_empty_witness :
  (Index.cartItemsCount
     (Index.run [Index.AddToCart headphones; Index.UpdateQuantity "1" 0.5]) <=? 0)%float
  = false.
Proof.
  apply (proj2 (badge_zero_iff_empty
                  [Index.AddToCart headphones; Index.UpdateQuantity "1" 0.5])).
  discriminate.
Defined.

(** X8. Adding a product that is not in the cart [n + 1] times in a row
    appends a single line item for it, with quantity [n + 1] as long as
    that is at most [2^53].  A quantity of [2^53] is where it ends: further
    adds of the product leave the cart as it is. *)
Theorem add_repeatedly (product : Product) :
  (forall (cart : list CartItem) (n : nat),
      absent (id product) cart -> Z.of_nat n + 1 <= 2 ^ 53 ->
      Index.run_from cart (List.repeat (Index.AddToCart product) (S n))
      = cart ++ [ {| product_of := product; quantity := num (Z.of_nat n + 1) |} ])
  /\ (forall (l1 l2 : list CartItem) (stored : Product) (k : nat),
        absent (id product) l1 -> absent (id product) l2 ->
        id stored = id product ->
        Index.run_from (l1 ++ line stored two53 :: l2)
                       (List.repeat (Index.AddToCart product) k)
        = l1 ++ line stored two53 :: l2).
Proof.
  split.
  - intros cart n Habs. induction n as [|n IH]; intros Hmax.
    + simpl. now apply addToCart_absent.
    + change (List.repeat (Index.AddToCart product) (S (S n)))
        with (Index.AddToCart product :: List.repeat (Index.AddToCart product) (S n)).
      rewrite List.repeat_cons, run_from_snoc, IH by lia. simpl.
      rewrite (addToCart_present product _ (line product (num (Z.of_nat n + 1))));
        [|apply in_or_app; right; now left|reflexivity].
      rewrite (map_on_id_split
                 (fun item => Index.with_quantity item (quantity item + 1)%float));
        [|exact Habs|intros ? []|reflexivity].
      unfold Index.with_quantity. simpl. do 3 f_equal.
      change 1%float with (num 1). rewrite num_add by lia. f_equal. lia.
  - intros l1 l2 stored k H1 H2 Hid. induction k as [|k IH]; [reflexivity|].
    cbn [List.repeat Index.run_from List.fold_left Index.apply_op].
    rewrite (addToCart_present product _ (line stored two53));
      [|apply in_or_app; right; now left|exact Hid].
    rewrite (map_on_id_split
               (fun item => Index.with_quantity item (quantity item + 1)%float));
      [|exact H1|exact H2|exact Hid].
    exact IH.
Qed.

Lemma add_repeatedly_witness :
  Index.run_from sample_cart (List.repeat (Index.AddToCart watch) 4)
  = sample_cart ++ [line watch (num (3 + 1))]
  /\ Index.run_from [line headphones two53; line jacket 3]
                    (List.repeat (Index.AddToCart relabelled) 2)
     = [line headphones two53; line jacket 3].
Proof.
  destruct (add_repeatedly watch) as [Hfresh _].
  destruct (add_repeatedly relabelled) as [_ Hsat].
  split.
  - apply (Hfresh sample_cart 3%nat); [|simpl; lia].
    intros item [<-|[<-|[]]]; discriminate.
  - apply (Hsat [] [line jacket 3] headphones 2%nat);
      [intros ? []|intros item [<-|[]]; discriminate|reflexivity].
Defined.

Section Commutation.

Import Index.

Lemma item_id_with_quantity (item : CartItem) (q : float) :
  item_id (with_quantity item q) = item_id item.
Proof. reflexivity. Qed.

Lemma removeFromCart_comm a b (cart : list CartItem) :
  removeFromCart a (removeFromCart b cart)
  = removeFromCart b (removeFromCart a cart).
Proof.
  unfold removeFromCart. induction cart as [|x cart IH]; simpl; [reflexivity|].
  destruct (String.eqb (item_id x) a) eqn:Ea;
    destruct (String.eqb (item_id x) b) eqn:Eb; simpl;
    rewrite ?Ea, ?Eb; simpl; now rewrite IH.
Qed.

(** Removal of one id and a rewrite of the quantities of another. *)
Lemma removeFromCart_map_other (g : CartItem -> float) a b (cart : list CartItem) :
  a <> b ->
  removeFromCart a
    (List.map (fun item => if String.eqb (item_id item) b
                           then with_quantity item (g item) else item) cart)
  = List.map (fun item => if String.eqb (item_id item) b
                          then with_quantity item (g item) else item)
      (removeFromCart a cart).
Proof.
  intros Hab. unfold removeFromCart.
  induction cart as [|x cart IH]; simpl; [reflexivity|].
  destruct (String.eqb (item_id x) a) eqn:Ea;
    destruct (String.eqb (item_id x) b) eqn:Eb;
    rewrite ?item_id_with_quantity, ?Ea; simpl; rewrite ?Eb.
  - apply String.eqb_eq in Ea, Eb. destruct Hab. congruence.
  - exact IH.
  - now rewrite IH.
  - now rewrite IH.
Qed.

(** Rewrites of the quantities of two different ids. *)
Lemma map_on_ids_comm (f g : CartItem -> float) a b (cart : list CartItem) :
  a <> b ->
  List.map (fun item => if String.eqb (item_id item) a
                        then with_quantity item (f item) else item)
    (List.map (fun item => if String.eqb (item_id item) b
                           then with_quantity item (g item) else item) cart)
  = List.map (fun item => if String.eqb (item_id item) b
                          then with_quantity item (g item) else item)
      (List.map (fun item => if String.eqb (item_id item) a
                             then with_quantity item (f item) else item) cart).
Proof.
  intros Hab. rewrite !List.map_map. apply List.map_ext. intros x.
  destruct (String.eqb (item_id x) a) eqn:Ea;
    destruct (String.eqb (item_id x) b) eqn:Eb;
    rewrite ?item_id_with_quantity, ?Ea, ?Eb; try reflexivity.
  apply String.eqb_eq in Ea, Eb. destruct Hab. congruence.
Qed.

End Commutation.

(** X9. Handlers called for two different product ids can be swapped, on
    any list of line items: two removals, two quantity updates, and an
    [addToCart] with a removal or a quantity update of another id give the
    same cart in either order. *)
Theorem different_products_commute (cart : list CartItem) (a b : string) :
  a <> b ->
  Index.removeFromCart a (Index.removeFromCart b cart)
  = Index.removeFromCart b (Index.removeFromCart a cart)
  /\ (forall qa qb,
        Index.updateQuantity a qa (Index.updateQuantity b qb cart)
        = Index.updateQuantity b qb (Index.updateQuantity a qa cart))
  /\ (forall product, id product = a ->
        Index.removeFromCart b (Index.addToCart product cart)
        = Index.addToCart product (Index.removeFromCart b cart)
        /\ forall q,
             Index.updateQuantity b q (Index.addToCart product cart)
             = Index.addToCart product (Index.updateQuantity b q cart)).
Proof.
  intros Hab.
  assert (Hrm : forall product, id product = a ->
            Index.removeFromCart b (Index.addToCart product cart)
            = Index.addToCart product (Index.removeFromCart b cart)).
  { intros product Hid. subst a.
    destruct (present_or_absent (id product) cart) as [(e & Hin & He)|Habs].
    - rewrite (addToCart_present product cart e Hin He).
      rewrite (addToCart_present product _ e);
        [|apply filter_In; split; [exact Hin|]|exact He].
      + apply (removeFromCart_map_other (fun item => (quantity item + 1)%float));
          congruence.
      + rewrite He. apply Bool.negb_true_iff, String.eqb_neq. exact Hab.
    - rewrite (addToCart_absent _ _ Habs), removeFromCart_app.
      rewrite addToCart_absent.
      + f_equal. unfold Index.removeFromCart, item_id. simpl.
        now rewrite (proj2 (String.eqb_neq _ _) Hab).
      + intros item Hin. apply filter_In in Hin as [Hin _]. now apply Habs. }
  split; [apply removeFromCart_comm|]. split.
  - intros qa qb. unfold Index.updateQuantity.
    destruct (qa <=? 0)%float; destruct (qb <=? 0)%float.
    + apply removeFromCart_comm.
    + apply (removeFromCart_map_other (fun _ => qb)). exact Hab.
    + symmetry. apply (removeFromCart_map_other (fun _ => qa)). congruence.
    + now apply (map_on_ids_comm (fun _ => qa) (fun _ => qb)).
  - intros product Hid. split; [now apply Hrm|].
    intros q. unfold Index.updateQuantity.
    destruct (q <=? 0)%float; [now apply Hrm|]. subst a.
    destruct (present_or_absent (id product) cart) as [Hpres|Habs].
    + destruct (present_map_on_id (fun _ => q) b _ _ Hpres) as (e' & Hin' & He').
      destruct Hpres as (e & Hin & He).
      rewrite (addToCart_present product cart e Hin He).
      rewrite (addToCart_present product _ e' Hin' He').
      apply (map_on_ids_comm (fun _ => q) (fun item => (quantity item + 1)%float)).
      congruence.
    + rewrite (addToCart_absent _ _ Habs).
      rewrite (addToCart_absent product _
                 (absent_map_on_id (fun _ => q) b _ _ Habs)).
      rewrite List.map_app. f_equal. simpl. unfold item_id. simpl.
      now rewrite (proj2 (String.eqb_neq _ _) Hab).
Qed.

Lemma different_products_commute_witness :
  Index.removeFromCart "2" (Index.addToCart relabelled sample_cart)
  = Index.addToCart relabelled (Index.removeFromCart "2" sample_cart)
  /\ Index.updateQuantity "1" 5 (Index.updateQuantity "2" 0 sample_cart)
     = Index.updateQuantity "2" 0 (Index.updateQuantity "1" 5 sample_cart).
Proof.
  assert (Hne : "1"%string <> "2"%string) by discriminate.
  destruct (different_products_commute sample_cart "1" "2" Hne)
    as (_ & Hupd & Hadd).
  split; [exact (proj1 (Hadd relabelled eq_refl))|exact (Hupd 5%float 0%float)].
Defined.

(** X10. When every product handed to [addToCart] comes from a given
    product list (the grid only offers the products it shows), every line
    item of the cart stores one of these products and the cart never has
    more line items than the list has products. *)
Theorem cart_within_catalog (products : list Product) (ops : list Index.CartOp) :
  (forall product, In (Index.AddToCart product) ops -> In product products) ->
  Forall (fun item => In (product_of item) products) (Index.run ops)
  /\ (length (Index.run ops) <= length products)%nat.
Proof.
  intros Hops.
  assert (Hall : forall item, In item (Index.run ops) ->
                              In (product_of item) products).
  { intros item Hin.
    destruct (run_from_origin ops [] item Hin) as [(item0 & [] & _)|H].
    now apply Hops. }
  split.
  - apply Forall_forall. intros item Hin. apply Hall.
    now apply list_elem_of_In.
  - assert (Hinv : cart_inv (Index.run ops)).
    { apply run_from_inv. split; [apply NoDup_nil_2|constructor]. }
    destruct Hinv as [Huniq _].
    rewrite <- (List.length_map item_id (Index.run ops)).
    rewrite <- (List.length_map id products).
    apply submseteq_length, NoDup_submseteq; [exact Huniq|].
    intros i Hi. apply list_elem_of_In, in_map_iff in Hi as (item & <- & Hin).
    apply list_elem_of_In, in_map_iff. exists (product_of item).
    split; [reflexivity|now apply Hall].
Qed.

Lemma cart_within_catalog_witness :
  Forall (fun item => In (product_of item) [headphones; jacket])
         (Index.run [Index.AddToCart jacket; Index.AddToCart headphones;
                     Index.AddToCart jacket])
  /\ (length (Index.run [Index.AddToCart jacket; Index.AddToCart headphones;
                         Index.AddToCart jacket]) <= 2)%nat.
Proof.
  apply (cart_within_catalog [headphones; jacket]).
  intros product [H|[H|[H|[]]]]; injection H as <-; simpl; auto.
Defined.

(** * Further properties of the catalog view *)

Section Favorites.

Import ProductGrid.

Lemma elem_of_toggleFavorite (x y : string) (favs : gset string) :
  y ∈ toggleFavorite x favs <-> (if decide (y = x) then y ∉ favs else y ∈ favs).
Proof.
  unfold toggleFavorite. simpl.
  destruct (decide (x ∈ favs)) as [Hin|Hnin]; destruct (decide (y = x)) as [->|Hy].
  - rewrite elem_of_difference, elem_of_singleton. tauto.
  - rewrite elem_of_difference, elem_of_singleton. tauto.
  - rewrite elem_of_union, elem_of_singleton. tauto.
  - rewrite elem_of_union, elem_of_singleton. tauto.
Qed.

End Favorites.

(** X11. Heart clicks on two products can come in either order: the
    resulting favourite set is the same. *)
Theorem toggleFavorite_comm (favs : gset string) (x y : string) :
  ProductGrid.toggleFavorite x (ProductGrid.toggleFavorite y favs)
  = ProductGrid.toggleFavorite y (ProductGrid.toggleFavorite x favs).
Proof.
  apply set_eq. intros z.
  rewrite (elem_of_toggleFavorite x z (ProductGrid.toggleFavorite y favs)).
  rewrite (elem_of_toggleFavorite y z (ProductGrid.toggleFavorite x favs)).
  pose proof (elem_of_toggleFavorite x z favs) as Hx.
  pose proof (elem_of_toggleFavorite y z favs) as Hy.
  destruct (decide (z = x)); destruct (decide (z = y)); tauto.
Qed.

(** X12. After any series of heart clicks a product is a favourite
    exactly when its membership was flipped an odd number of times: with an
    even number of clicks on it, it is a favourite iff it was one before;
    with an odd number, iff it was not. *)
Theorem favorite_parity (productIds : list string) (favs : gset string) (x : string) :
  x ∈ ProductGrid.toggleAll productIds favs
  <-> (if Nat.odd (length (List.filter (String.eqb x) productIds))
       then x ∉ favs else x ∈ favs).
Proof.
  unfold ProductGrid.toggleAll. revert favs.
  induction productIds as [|y ids IH]; intros favs; simpl; [reflexivity|].
  rewrite IH. pose proof (elem_of_toggleFavorite y x favs) as Hy.
  destruct (String.eqb_spec x y) as [->|Hxy].
  - destruct (decide (y = y)) as [_|N]; [|destruct (N eq_refl)].
    simpl length. rewrite Nat.odd_succ, <- Nat.negb_odd.
    destruct (Nat.odd _); simpl; [|exact Hy].
    destruct (decide (y ∈ favs)); tauto.
  - destruct (decide (x = y)) as [E|_]; [destruct (Hxy E)|].
    destruct (Nat.odd _); tauto.
Qed.

Section Categories.

Import ProductGrid.

(** The loop of [new Set(xs)], from any set of values already seen. *)
Lemma setFrom_loop (xs : list string) : forall seen : list string,
  NoDup seen ->
  exists fresh,
    List.fold_left (fun (seen : list string) (x : string) =>
                      if decide (x ∈ seen) then seen else seen ++ [x]) xs seen
    = seen ++ fresh
    /\ NoDup (seen ++ fresh)
    /\ fresh `sublist_of` xs
    /\ forall x, In x xs -> In x (seen ++ fresh).
Proof.
  induction xs as [|x xs IH]; intros seen Hnd; simpl.
  - exists []. rewrite app_nil_r. repeat split; [exact Hnd|constructor|].
    intros x [].
  - destruct (decide (x ∈ seen)) as [Hin|Hnin].
    + destruct (IH seen Hnd) as (fresh & Heq & Hnd' & Hsub & Hall).
      exists fresh. repeat split; [exact Heq|exact Hnd'|now constructor|].
      intros y [<-|Hy]; [|now apply Hall].
      apply in_or_app. left. now apply list_elem_of_In.
    + assert (Hnd1 : NoDup (seen ++ [x])).
      { apply NoDup_app. repeat split; [exact Hnd| |apply NoDup_singleton].
        intros y Hy Hy1. apply list_elem_of_singleton in Hy1. now subst y. }
      destruct (IH (seen ++ [x]) Hnd1) as (fresh & Heq & Hnd' & Hsub & Hall).
      exists (x :: fresh). rewrite <- !app_assoc in *. simpl in *.
      repeat split; [exact Heq|exact Hnd'|now constructor|].
      intros y [<-|Hy]; [|now apply Hall].
      apply in_or_app. right. now left.
Qed.

Lemma setFrom_spec (xs : list string) :
  NoDup (setFrom xs)
  /\ setFrom xs `sublist_of` xs
  /\ forall x, In x (setFrom xs) <-> In x xs.
Proof.
  unfold setFrom.
  destruct (setFrom_loop xs [] (NoDup_nil_2 : NoDup [])) as (fresh & -> & Hnd & Hsub & Hall).
  simpl in *. repeat split; [exact Hnd|exact Hsub| |apply Hall].
  intros Hx. apply list_elem_of_In. eapply elem_of_sublist; [|exact Hsub].
  now apply list_elem_of_In.
Qed.

Lemma setFrom_snoc (xs : list string) (x : string) :
  setFrom (xs ++ [x]) = if decide (x ∈ xs) then setFrom xs else setFrom xs ++ [x].
Proof.
  destruct (setFrom_spec xs) as (_ & _ & Hmem).
  unfold setFrom in *. rewrite List.fold_left_app. simpl.
  destruct (decide (x ∈ List.fold_left _ xs [])) as [Hin|Hnin];
    destruct (decide (x ∈ xs)) as [Hx|Hx]; try reflexivity.
  - destruct Hx. now apply list_elem_of_In, Hmem, list_elem_of_In.
  - destruct Hnin. now apply list_elem_of_In, Hmem, list_elem_of_In.
Qed.

Lemma filter_all_false_cat {A : Type} (f : A -> bool) (l : list A) :
  (forall x, In x l -> f x = false) -> List.filter f l = [].
Proof.
  induction l as [|a l IH]; intros H; simpl; [reflexivity|].
  rewrite (H a (or_introl eq_refl)). apply IH.
  intros x Hx. apply H. now right.
Qed.

End Categories.

(** X13. The category buttons, for any product list: the first button is
    "All"; after it comes each category of the list exactly once, in the
    order in which the categories first appear: a product appended to the
    list adds a button at the end when its category is new and changes
    nothing otherwise.  The whole row of buttons is free of duplicates
    exactly when no product has the category "All". *)
Theorem categoriesOf_spec (products : list Product) :
  (exists cs,
      ProductGrid.categoriesOf products = "All"%string :: cs
      /\ NoDup cs
      /\ cs `sublist_of` List.map category products
      /\ (forall c, In c cs <-> exists p, In p products /\ category p = c))
  /\ (forall p,
        ProductGrid.categoriesOf (products ++ [p])
        = if decide (category p ∈ List.map category products)
          then ProductGrid.categoriesOf products
          else ProductGrid.categoriesOf products ++ [category p])
  /\ (NoDup (ProductGrid.categoriesOf products)
      <-> Forall (fun p => category p <> "All"%string) products).
Proof.
  destruct (setFrom_spec (List.map category products)) as (Hnd & Hsub & Hmem).
  assert (Hcs : forall c, In c (ProductGrid.setFrom (List.map category products))
                          <-> exists p, In p products /\ category p = c).
  { intros c. rewrite Hmem, in_map_iff. split; intros (p & H1 & H2); exists p; auto. }
  split; [|split; [|split]].
  - exists (ProductGrid.setFrom (List.map category products)).
    repeat split; [exact Hnd|exact Hsub|apply Hcs|apply Hcs].
  - intros p. unfold ProductGrid.categoriesOf.
    rewrite List.map_app. simpl. rewrite setFrom_snoc.
    now destruct (decide (category p ∈ List.map category products)).
  - unfold ProductGrid.categoriesOf. intros H. apply NoDup_cons in H as [Hnin _].
    apply Forall_forall. intros p Hp Hcat. apply Hnin, list_elem_of_In, Hcs.
    exists p. split; [now apply list_elem_of_In|exact Hcat].
  - intros H. unfold ProductGrid.categoriesOf. apply NoDup_cons.
    split; [|exact Hnd]. intros Hin.
    apply list_elem_of_In, Hcs in Hin as (p & Hp & Hcat).
    apply list_elem_of_In in Hp.
    exact (proj1 (Forall_forall _ _) H p Hp Hcat).
Qed.

(** X14. What the category buttons show, for any product list: every
    product is shown under the button of its own category; a button of a
    non-empty list never shows an empty grid; a selection that is not
    among the buttons shows nothing; and the shown products (the cards are
    keyed by id) have distinct ids whenever the list has.  The component
    computes its view in this way from [mockProducts]. *)
Theorem category_buttons (products : list Product) :
  (forall p, In p products ->
             In p (ProductGrid.filterProducts products (category p)))
  /\ (forall c, In c (ProductGrid.categoriesOf products) -> products <> [] ->
                ProductGrid.filterProducts products c <> [])
  /\ (forall c, ~ In c (ProductGrid.categoriesOf products) ->
                ProductGrid.filterProducts products c = [])
  /\ (forall c, NoDup (List.map id products) ->
                NoDup (List.map id (ProductGrid.filterProducts products c)))
  /\ (forall c, ProductGrid.filteredProducts c
                = ProductGrid.filterProducts ProductGrid.mockProducts c).
Proof.
  assert (Hown : forall p, In p products ->
                   In p (ProductGrid.filterProducts products (category p))).
  { intros p Hp. unfold ProductGrid.filterProducts.
    destruct (String.eqb (category p) "All"); [exact Hp|].
    apply filter_In. split; [exact Hp|apply String.eqb_refl]. }
  destruct (setFrom_spec (List.map category products)) as (_ & _ & Hmem).
  split; [exact Hown|]. split; [|split; [|split]].
  - intros c [<-|Hc] Hne.
    + exact Hne.
    + apply Hmem, in_map_iff in Hc as (p & <- & Hp).
      intros Hnil. specialize (Hown p Hp). now rewrite Hnil in Hown.
  - intros c Hc. unfold ProductGrid.filterProducts.
    destruct (String.eqb_spec c "All") as [->|_]; [destruct Hc; now left|].
    apply filter_all_false_cat. intros p Hp.
    apply String.eqb_neq. intros Hcat. apply Hc. right.
    apply Hmem, in_map_iff. now exists p.
  - intros c Hnd. unfold ProductGrid.filterProducts.
    destruct (String.eqb c "All"); [exact Hnd|now apply NoDup_map_filter].
  - reflexivity.
Qed.

Lemma category_buttons_witness :
  In jacket (ProductGrid.filterProducts [headphones; jacket; watch] "Fashion")
  /\ ProductGrid.filterProducts [headphones; jacket; watch] "Wearables" <> []
  /\ ProductGrid.filterProducts [headphones; jacket; watch] "Toys" = []
  /\ NoDup (List.map id
              (ProductGrid.filterProducts [headphones; jacket; watch] "Fashion")).
Proof.
  destruct (category_buttons [headphones; jacket; watch])
    as (Hown & Hbutton & Hunknown & Hkeys & _).
  split; [|split; [|split]].
  - apply (Hown jacket). right. now left.
  - apply Hbutton; [|discriminate].
    unfold ProductGrid.categoriesOf. simpl. vm_compute. auto.
  - apply Hunknown. vm_compute. intuition discriminate.
  - apply Hkeys. apply NoDup_ListNoDup. simpl.
    repeat constructor; simpl; intuition discriminate.
Defined.

(** X15. The star row of a product card always has five stars; the
    filled ones come first and their number is the integer part of the
    rating, taken as 0 below 0 and as 5 above 5. *)
Theorem filledStars_count (product : Product) :
  ProductGrid.filledStars product
  = List.repeat true (Z.to_nat (Z.max 0 (Z.min 5 (Qfloor (rating product)))))
    ++ List.repeat false
         (5 - Z.to_nat (Z.max 0 (Z.min 5 (Qfloor (rating product)))))
  /\ length (ProductGrid.filledStars product) = 5%nat.
Proof.
  split; [|reflexivity].
  unfold ProductGrid.filledStars. generalize (Qfloor (rating product)) as f.
  intros f. change (List.map Z.of_nat (List.seq 0 5)) with [0; 1; 2; 3; 4].
  cbn [List.map].
  destruct (Z.ltb_spec 0 f); destruct (Z.ltb_spec 1 f);
    destruct (Z.ltb_spec 2 f); destruct (Z.ltb_spec 3 f);
    destruct (Z.ltb_spec 4 f); try (exfalso; lia);
    first
      [ replace (Z.to_nat (Z.max 0 (Z.min 5 f))) with 0%nat by lia; reflexivity
      | replace (Z.to_nat (Z.max 0 (Z.min 5 f))) with 1%nat by lia; reflexivity
      | replace (Z.to_nat (Z.max 0 (Z.min 5 f))) with 2%nat by lia; reflexivity
      | replace (Z.to_nat (Z.max 0 (Z.min 5 f))) with 3%nat by lia; reflexivity
      | replace (Z.to_nat (Z.max 0 (Z.min 5 f))) with 4%nat by lia; reflexivity
      | replace (Z.to_nat (Z.max 0 (Z.min 5 f))) with 5%nat by lia; reflexivity ].
Qed.

Example stars_of_headphones :
  List.map ProductGrid.filledStars (List.firstn 1 ProductGrid.mockProducts)
  = [[true; true; true; true; false]].
Proof. reflexivity. Qed.

(** X16. A product that is removed and then added again does not get its
    old line item back: on any list of line items the new line item goes
    to the end of the cart with quantity 1, also when the removal came
    from [updateQuantity] with a quantity [<= 0]. *)
Theorem readd_starts_over (cart : list CartItem) (product : Product) :
  Index.addToCart product (Index.removeFromCart (id product) cart)
  = Index.removeFromCart (id product) cart
    ++ [ {| product_of := product; quantity := 1 |} ]
  /\ forall q, (q <=? 0)%float = true ->
       Index.addToCart product (Index.updateQuantity (id product) q cart)
       = Index.removeFromCart (id product) cart
         ++ [ {| product_of := product; quantity := 1 |} ].
Proof.
  assert (H : Index.addToCart product (Index.removeFromCart (id product) cart)
              = Index.removeFromCart (id product) cart ++ [line product 1])
    by apply addToCart_absent, removeFromCart_is_absent.
  split; [exact H|].
  intros q Hq. unfold Index.updateQuantity.
  rewrite Hq. exact H.
Qed.

Lemma readd_starts_over_witness :
  Index.addToCart headphones (Index.updateQuantity "1" (-2) sample_cart)
  = [line jacket 3; line headphones 1].
Proof.
  apply (proj2 (readd_starts_over sample_cart headphones) (-2)%float). reflexivity.
Defined.
